(** * Irradiance dataset 2013-2023: the imputation routine and its plotting consumer

    A shallow embedding of [correct_missing_data.py] (the function
    [fill_missing_irradiance_data]) and of the configuration part of
    [visualizing_irradiance_3d.py].

    Modelling choices, all read off the source:

    - irradiance cells are IEEE-754 binary64 numbers, as pandas and numpy have
      them: Rocq's primitive [float]. A missing reading is the NaN of that
      type, tested with [np.isnan] / [isnull];
    - a [DataFrame] keeps its column labels and its rows; the index is the
      default [RangeIndex] that [pd.read_excel] and [pd.DataFrame(data)] build,
      so the label of a row is its position;
    - a row read by [iterrows] from a frame that mixes a datetime column, an
      integer column and float columns is an object Series, so [np.nanmean]
      takes its object-array path: sequential left-to-right additions over the
      row with every NaN replaced by 0, divided by the number of non-NaN cells;
    - the function copies its argument, updates the copy in place and prints
      three lines: the model threads a heap of frames and the standard output
      through a small state-and-failure monad. *)

From Stdlib Require Import ZArith Floats Uint63 Strings.String Lia.
From stdpp Require Import base option list.

Set Warnings "-inexact-float".

(** ** Data model *)

(** A column label: pandas allows strings (['Date'], ['Day']) and integers
    ([2013], [2014], ...) side by side. *)
Inductive Label : Type :=
  | LStr (s : string)
  | LInt (y : Z).

(** One row of the table: the two leading identifier cells and the cells of
    the remaining columns ([row[df.columns[2:]]]). [Date] is the timestamp in
    nanoseconds since the epoch, as pandas stores it. *)
Record Row : Type := mkRow {
  Date : Z;
  Day : Z;
  irradiance : list float
}.

Record DataFrame : Type := mkDF {
  columns : list Label;
  values : list Row
}.

(** ** numpy and pandas primitives used by the routine *)

Definition isnan (x : float) : bool := PrimFloat.is_nan x.

(** [_replace_nan(a, 0)]: the copy of the array with 0 where the mask is set. *)
Definition replace_nan (a : list float) : list float :=
  map (fun x => if isnan x then 0%float else x) a.

(** [np.sum] on a one-dimensional object array: the first element, then each
    next one added on the right; 0 for an empty array. *)
Definition np_sum (a : list float) : float :=
  match a with
  | [] => 0%float
  | x :: rest => fold_left PrimFloat.add rest x
  end.

(** [cnt = np.sum(~mask)]: how many cells are not NaN. *)
Definition count_valid (a : list float) : nat :=
  length (filter (fun x => isnan x = false) a).

(** The conversion of the integer count to binary64 for the division. *)
Definition float_of_count (n : nat) : float :=
  PrimFloat.of_uint63 (Uint63.of_Z (Z.of_nat n)).

(** [np.nanmean(a)]: [tot / cnt]; 0/0 = NaN when no cell is valid (numpy only
    warns "Mean of empty slice"). *)
Definition nanmean (a : list float) : float :=
  PrimFloat.div (np_sum (replace_nan a)) (float_of_count (count_valid a)).

(** [Series.fillna(value)] *)
Definition fillna (value : float) (a : list float) : list float :=
  map (fun x => if isnan x then value else x) a.

(** The number of NaN cells among the year cells of one row. *)
Definition row_nulls (r : Row) : nat :=
  length (filter (fun x => isnan x = true) (irradiance r)).

(** [df[irradiance_cols].isnull().sum().sum()]: the number of NaN cells in the
    year columns (the double sum counts every such cell once). *)
Definition isnull_sum (df : DataFrame) : nat :=
  sum_list_with row_nulls (values df).

(** [df.loc[index, irradiance_cols] = vals] on a frame with a [RangeIndex]. *)
Definition loc_set (index : nat) (vals : list float) (df : DataFrame) : DataFrame :=
  mkDF (columns df)
       (alter (fun r => mkRow (Date r) (Day r) vals) index (values df)).

(** [df.iterrows()]: the pairs (index, row), read from a snapshot of the
    frame's values taken when the iteration starts. *)
Definition iterrows (df : DataFrame) : list (nat * Row) :=
  imap (fun i r => (i, r)) (values df).

(** ** The process state: a heap of frames and the standard output *)

Definition ref : Type := nat.

(** The three lines the routine prints, each with the value it interpolates. *)
Inductive Line : Type :=
  | LineColumns (cols : list Label)
  | LineInitialNaN (n : nat)
  | LineFinalNaN (n : nat).

Record World : Type := mkWorld {
  heap : list DataFrame;
  stdout : list Line
}.

Module IO.

Definition M (A : Type) : Type := World -> option (A * World).

Definition ret {A} (a : A) : M A := fun w => Some (a, w).

Definition bind {A B} (m : M A) (k : A -> M B) : M B :=
  fun w => match m w with
           | Some (a, w') => k a w'
           | None => None
           end.

(** Reading through a reference; a dangling reference fails. *)
Definition deref (r : ref) : M DataFrame :=
  fun w => match heap w !! r with
           | Some df => Some (df, w)
           | None => None
           end.

(** [df.copy()]: a deep copy at a fresh address. *)
Definition copy (r : ref) : M ref :=
  fun w => match heap w !! r with
           | Some df => Some (length (heap w), mkWorld (heap w ++ [df]) (stdout w))
           | None => None
           end.

(** An in-place update of the frame behind a reference. *)
Definition update (r : ref) (f : DataFrame -> DataFrame) : M unit :=
  fun w => match heap w !! r with
           | Some df => Some (tt, mkWorld (<[r := f df]> (heap w)) (stdout w))
           | None => None
           end.

Definition print (l : Line) : M unit :=
  fun w => Some (tt, mkWorld (heap w) (stdout w ++ [l])).

(** A [for] loop over a list. *)
Fixpoint for_each {A} (l : list A) (body : A -> M unit) : M unit :=
  match l with
  | [] => ret tt
  | x :: rest => bind (body x) (fun _ => for_each rest body)
  end.

End IO.

Notation "x <- m ;; k" := (IO.bind m (fun x => k))
  (at level 100, m at next level, right associativity).
Notation "m ;;; k" := (IO.bind m (fun _ => k))
  (at level 100, right associativity).

(** ** [fill_missing_irradiance_data] *)

(** The body of the [for index, row in df_filled.iterrows()] loop. *)
Definition fill_row_step (df_filled : ref) (ir : nat * Row) : IO.M unit :=
  let '(index, row) := ir in
  let irradiance_values_in_row := irradiance row in
  let row_mean := nanmean irradiance_values_in_row in
  if negb (isnan row_mean)
  then IO.update df_filled (loc_set index (fillna row_mean (irradiance row)))
  else IO.ret tt.

Definition fill_missing_irradiance_data (df : ref) : IO.M ref :=
  df_filled <- IO.copy df ;;
  t0 <- IO.deref df_filled ;;
  let irradiance_cols := drop 2 (columns t0) in
  IO.print (LineColumns irradiance_cols) ;;;
  IO.print (LineInitialNaN (isnull_sum t0)) ;;;
  IO.for_each (iterrows t0) (fill_row_step df_filled) ;;;
  t1 <- IO.deref df_filled ;;
  IO.print (LineFinalNaN (isnull_sum t1)) ;;;
  IO.ret df_filled.

(** The table a call returns, as a function of the table it is given: the
    routine run in a process that holds that one frame. *)
Definition impute (t : DataFrame) : DataFrame :=
  match fill_missing_irradiance_data 0 (mkWorld [t] []) with
  | Some (r, w) => default t (heap w !! r)
  | None => t
  end.

(** [np.nan] *)
Definition nan : float := PrimFloat.nan.

(** The [sample_df] of the script's demonstration block. *)
Definition sample_df : DataFrame :=
  mkDF [LStr "Date"; LStr "Day"; LInt 2013; LInt 2014; LInt 2015; LInt 2016]
       [ mkRow 1672531200000000000 1 [0.1; 0.15; nan; 0.12]%float;
         mkRow 1672531500000000000 1 [0.2; nan; 0.22; 0.23]%float;
         mkRow 1672531800000000000 1 [nan; 0.35; 0.32; 0.33]%float;
         mkRow 1672532100000000000 1 [0.4; 0.45; nan; 0.43]%float;
         mkRow 1672532400000000000 1 [0.5; 0.55; 0.52; nan]%float ].

(** ** The data model of the specification *)

(** A year cell is nullable and, when present, a real number: NaN or a finite
    binary64 value (no infinity). *)
Definition null_or_real (x : float) : bool :=
  isnan x || PrimFloat.is_finite x.

(** An IrradianceTable: two leading identifier columns, then one cell per
    remaining column in every row, each of them null or real. The year columns
    are a small set: their number converts to binary64 exactly (below 2^53). *)
Definition is_irradiance_table (t : DataFrame) : bool :=
  (2 <=? length (columns t))%nat
  && (Z.of_nat (length (columns t)) <? 2 ^ 53)%Z
  && forallb (fun r => (length (irradiance r) =? length (drop 2 (columns t)))%nat
                       && forallb null_or_real (irradiance r))
             (values t).

Definition IrradianceTable (t : DataFrame) : Prop := is_irradiance_table t = true.

(** The originally non-null values of a row. *)
Definition observed (a : list float) : list float :=
  filter (fun x => isnan x = false) a.

(** The arithmetic mean as the specification words it: the sum of the values,
    accumulated from 0 in row order, over their number. *)
Definition arithmetic_mean (xs : list float) : float :=
  PrimFloat.div (fold_left PrimFloat.add xs 0%float) (float_of_count (length xs)).

(** A value lies between the minimum and the maximum of a list: some element
    is below it and some element is above it. *)
Definition within_observed_range (obs : list float) (c : float) : Prop :=
  (exists lo, lo ∈ obs /\ PrimFloat.leb lo c = true)
  /\ (exists hi, hi ∈ obs /\ PrimFloat.leb c hi = true).

(** What one pass of the loop body leaves in a row, and in the whole frame;
    [impute_imputed] below proves that the routine computes exactly this. *)
Definition imputed_row (r : Row) : Row :=
  if isnan (nanmean (irradiance r)) then r
  else mkRow (Date r) (Day r) (fillna (nanmean (irradiance r)) (irradiance r)).

Definition imputed (t : DataFrame) : DataFrame :=
  mkDF (columns t) (map imputed_row (values t)).

(** The example rows of the specification. *)
Definition example_partial : DataFrame :=
  mkDF [LStr "Date"; LStr "Day"; LInt 2013; LInt 2014; LInt 2015; LInt 2016]
       [ mkRow 1672531200000000000 1 [0.1; nan; nan; 0.12]%float ].

Definition example_partial_filled : DataFrame :=
  mkDF [LStr "Date"; LStr "Day"; LInt 2013; LInt 2014; LInt 2015; LInt 2016]
       [ mkRow 1672531200000000000 1 [0.1; 0.11; 0.11; 0.12]%float ].

Definition example_missing : DataFrame :=
  mkDF [LStr "Date"; LStr "Day"; LInt 2013; LInt 2014; LInt 2015; LInt 2016]
       [ mkRow 1672531200000000000 1 [nan; nan; nan; nan] ].

(** A table with the two identifier columns only. *)
Definition example_no_years : DataFrame :=
  mkDF [LStr "Date"; LStr "Day"]
       [ mkRow 1672531200000000000 1 []; mkRow 1672531500000000000 1 [] ].

(** A row whose three readings are all 0.1. *)
Definition example_constant : DataFrame :=
  mkDF [LStr "Date"; LStr "Day"; LInt 2013; LInt 2014; LInt 2015; LInt 2016]
       [ mkRow 1672531200000000000 1 [0.1; 0.1; 0.1; nan]%float ].

(** ** The plotting script *)

Module Plot.

Definition EXCEL_FILE_PATH : string := "Proccess_irradiance_data_2013_2023.xlsx".
Definition SHEET_NAME : string := "Enero".
Definition OUTPUT_FILENAME : string := "irradiance_behaviour_3d.png".
Definition OUTPUT_DPI : Z := 300.

(** The workbooks [pd.read_excel] can see: a path and a sheet name give a
    frame, or the read raises. *)
Definition FileSystem : Type := string -> string -> option DataFrame.

(** The tuple [load_and_preprocess_data] returns. *)
Record Loaded : Type := mkLoaded {
  time : list Z;
  irradiance_data : list (list float);
  years : list Label;
  num_time_points : nat;
  num_years : nat
}.

(** Both [except] branches print and call [exit()]: no value comes back. *)
Definition load_and_preprocess_data (fs : FileSystem) (file_path sheet_name : string)
  : option Loaded :=
  match fs file_path sheet_name with
  | None => None
  | Some df =>
      let time_full := map Date (values df) in
      let irradiance_data_full := map irradiance (values df) in
      let years := drop 2 (columns df) in
      let num_rows := length (values df) in
      let quarter_rows := (num_rows / 4)%nat in
      let time := take quarter_rows time_full in
      let irradiance_data := take quarter_rows irradiance_data_full in
      Some (mkLoaded time irradiance_data years (length time) (length years))
  end.

(** One [ax.plot] call: the year index repeated, the time coordinates, the
    irradiance values of that year, and the legend label. *)
Record Line3D : Type := mkLine3D {
  line_x : list nat;
  line_y : list nat;
  line_z : list float;
  line_color : nat;
  line_label : Label
}.

Record Figure : Type := mkFigure {
  figsize : Z * Z;
  lines : list Line3D;
  xlabel : string;
  xticks : list nat;
  xticklabels : list Label;
  ylabel : string;
  yticks : list nat;
  zlabel : string;
  zlim : Z * Z;
  view_init : Z * Z;
  title : string;
  legend_ncol : nat
}.

(** What a call ends in: a value, or an exception that leaves the script. *)
Inductive Exception : Type :=
  | SystemExit
  | KeyError
  | IndexError
  | ValueError.

Inductive Outcome (A : Type) : Type :=
  | Returned (a : A)
  | Raised (e : Exception).

Arguments Returned {A} a.
Arguments Raised {A} e.

(** [irradiance_df[year].values] for the label at position [i]: the cell at
    that position of every row; a [KeyError] ([None]) when the rows do not
    reach that column. The block of cells stands for a frame whose column
    labels are [years_labels] in order, as in the script's one call. *)
Fixpoint column_values (i : nat) (irradiance_df : list (list float))
  : option (list float) :=
  match irradiance_df with
  | [] => Some []
  | row :: rest =>
      match row !! i, column_values i rest with
      | Some c, Some cs => Some (c :: cs)
      | _, _ => None
      end
  end.

(** [np.broadcast_to(zs, np.shape(xs))], the first step of [Axes3D.plot]: the
    z values as they are when there is one per point, a single value repeated,
    and a [ValueError] ([None]) otherwise. *)
Definition broadcast_to (zs : list float) (n : nat) : option (list float) :=
  if (length zs =? n)%nat then Some zs
  else match zs with
       | [z] => Some (replicate n z)
       | _ => None
       end.

(** The [for i, year in enumerate(years_labels)] loop, from index [i] on: the
    column lookup, then [colors[i]] in a palette of [num_years] colours, then
    the call of [ax.plot]. *)
Fixpoint plot_years (irradiance_df : list (list float))
    (num_time_points num_years : nat) (i : nat) (years_labels : list Label)
  : Outcome (list Line3D) :=
  match years_labels with
  | [] => Returned []
  | year :: rest =>
      match column_values i irradiance_df with
      | None => Raised KeyError
      | Some z_irradiance =>
          let y_year_index := replicate num_time_points i in
          let x_plot_coords := seq 0 num_time_points in
          if (i <? num_years)%nat then
            match broadcast_to z_irradiance num_time_points with
            | None => Raised ValueError
            | Some zs =>
                match plot_years irradiance_df num_time_points num_years (S i) rest with
                | Raised e => Raised e
                | Returned plotted =>
                    Returned (mkLine3D y_year_index x_plot_coords zs i year :: plotted)
                end
            end
          else Raised IndexError
      end
  end.

(** After the loop, [ax.set_xticklabels] refuses a non-empty list of labels
    whose length differs from the number of ticks set just before, and
    [ax.legend] refuses [ncol = 0]; both raise [ValueError]. *)
Definition create_3d_irradiance_plot (time_points : list Z)
    (irradiance_df : list (list float)) (years_labels : list Label)
    (num_time_points num_years : nat) : Outcome Figure :=
  match plot_years irradiance_df num_time_points num_years 0 years_labels with
  | Raised e => Raised e
  | Returned plotted =>
      if negb (length years_labels =? num_years)%nat
         && negb (length years_labels =? 0)%nat
      then Raised ValueError
      else if (num_years =? 0)%nat then Raised ValueError
      else Returned (mkFigure (10, 8)%Z plotted "Year" (seq 0 num_years) years_labels
                              "Time" [] "Irradiance" (0, 5000)%Z (30, 120)%Z
                              "Irradiance Behavior Over 8 Days" num_years)
  end.

(** The arguments of [plt.savefig]. *)
Record SavedImage : Type := mkSavedImage {
  fname : string;
  dpi : Z;
  bbox_inches : string;
  transparent : bool;
  figure : Figure
}.

(** The [__main__] block up to the [savefig] call: [exit()] when the
    workbook cannot be read, the exception of [create_3d_irradiance_plot] when
    it raises, the saved image otherwise. *)
Definition main (fs : FileSystem) : Outcome SavedImage :=
  match load_and_preprocess_data fs EXCEL_FILE_PATH SHEET_NAME with
  | None => Raised SystemExit
  | Some l =>
      match create_3d_irradiance_plot (time l) (irradiance_data l) (years l)
              (num_time_points l) (num_years l) with
      | Raised e => Raised e
      | Returned fig =>
          Returned (mkSavedImage OUTPUT_FILENAME OUTPUT_DPI "tight" true fig)
      end
  end.

End Plot.

(** ** Binary64 in its specification form

    [Prim2SF] maps a float to the [spec_float] the operations are specified
    on. The predicates below classify such values. *)

(** A value that is not NaN and carries the sign [sx]. *)
Definition shape (sx : bool) (r : spec_float) : Prop :=
  match r with
  | S754_nan => False
  | S754_zero s | S754_infinity s | S754_finite s _ _ => s = sx
  end.

(** A zero or a finite number. *)
Definition SFreal (s : spec_float) : Prop :=
  match s with
  | S754_zero _ | S754_finite _ _ _ => True
  | _ => False
  end.

(** A value on the side [b] of zero, either zero included. *)
Definition sgn (b : bool) (s : spec_float) : Prop :=
  match s with
  | S754_nan => False
  | S754_zero _ => True
  | S754_infinity s | S754_finite s _ _ => s = b
  end.

Definition SFis_zero (s : spec_float) : Prop :=
  match s with
  | S754_zero _ => True
  | _ => False
  end.

(** Equal, or both a zero: the values [==] does not tell apart. *)
Definition SFsim (a b : spec_float) : Prop :=
  a = b \/ (SFis_zero a /\ SFis_zero b).

(** ** Column-wise counts and the demonstration block *)

(** A row none of whose year cells holds a value ([row.isnull().all()]). *)
Definition fully_missing (r : Row) : bool := forallb isnan (irradiance r).

(** A frame is rectangular: every row has one cell per year column. *)
Definition rectangular (t : DataFrame) : Prop :=
  Forall (fun r => length (irradiance r) = length (drop 2 (columns t))) (values t).

(** [df[c].values] for the year column at position [j]. *)
Definition year_column (j : nat) (df : DataFrame) : list float :=
  omap (fun r => irradiance r !! j) (values df).

(** [df[irradiance_cols].isnull().sum()]: the NaN count of each year column,
    in column order. *)
Definition isnull_by_column (df : DataFrame) : list nat :=
  map (fun j => length (filter (fun x => isnan x = true) (year_column j df)))
      (seq 0 (length (drop 2 (columns df)))).

(** The lines and the figure the plotting script draws for a sheet: one line
    per year column over the first quarter of the rows;
    [main_on_sheet] below proves that the script builds exactly these. *)
Definition sheet_lines (df : DataFrame) : list Plot.Line3D :=
  let n := length (values df) / 4 in
  imap (fun k year =>
          Plot.mkLine3D (replicate n k) (seq 0 n)
            (omap (fun row : list float => row !! k)
                  (take n (map irradiance (values df))))
            k year)
       (drop 2 (columns df)).

Definition sheet_figure (df : DataFrame) : Plot.Figure :=
  Plot.mkFigure (10, 8)%Z (sheet_lines df) "Year"
    (seq 0 (length (drop 2 (columns df)))) (drop 2 (columns df))
    "Time" [] "Irradiance" (0, 5000)%Z (30, 120)%Z
    "Irradiance Behavior Over 8 Days" (length (drop 2 (columns df))).

Module Demo.

(** The four headings the demonstration block prints. *)
Inductive Heading : Type :=
  | HeadingOriginal
  | HeadingNaNBefore
  | HeadingFilled
  | HeadingNaNAfter.

(** What reaches the standard output: a heading, a printed frame, the Series
    of per-column NaN counts, or a line of the routine. *)
Inductive Out : Type :=
  | OutHeading (h : Heading)
  | OutFrame (df : DataFrame)
  | OutNullCounts (counts : list (Label * nat))
  | OutRoutine (l : Line).

(** [df.isnull().sum()] over all columns: the identifier cells are never
    null, the year columns count their NaN cells. *)
Definition null_counts (df : DataFrame) : list (Label * nat) :=
  zip (columns df) (0 :: 0 :: isnull_by_column df).

(** The body of the [__main__] block, for the frame it builds. *)
Definition demo (data : DataFrame) : option (list Out) :=
  match fill_missing_irradiance_data 0 (mkWorld [data] []) with
  | None => None
  | Some (filled, w) =>
      match heap w !! filled with
      | Some filled_df =>
          Some ([OutHeading HeadingOriginal; OutFrame data;
                 OutHeading HeadingNaNBefore; OutNullCounts (null_counts data)]
                ++ map OutRoutine (stdout w)
                ++ [OutHeading HeadingFilled; OutFrame filled_df;
                    OutHeading HeadingNaNAfter; OutNullCounts (null_counts filled_df)])
      | None => None
      end
  end.

Definition main : option (list Out) := demo sample_df.

End Demo.

(** Two calls in a row, the second on the frame the first returned. *)
Definition fill_twice (df : ref) : IO.M ref :=
  filled <- fill_missing_irradiance_data df ;;
  fill_missing_irradiance_data filled.

(** A table of real readings whose sum exceeds the binary64 range. *)
Definition example_overflow : DataFrame :=
  mkDF [LStr "Date"; LStr "Day"; LInt 2013; LInt 2014; LInt 2015]
       [ mkRow 1672531200000000000 1 [1.0e308; 1.0e308; nan]%float ].

(** * Facts about binary64 arithmetic

    The primitive operations are specified through [Prim2SF] by the functions
    of [SpecFloat]; the facts below are read off those functions. *)

(** ** NaN and the real values *)

Lemma SFcompare_refl (s : spec_float) : s <> S754_nan -> SFcompare s s = Some Eq.
Proof.
  destruct s as [[]|[]| |[] m e]; simpl; try congruence; intros _;
    rewrite Z.compare_refl, ?Pos.compare_cont_refl; reflexivity.
Qed.

(** [np.isnan] holds of the NaN and of nothing else. *)
Lemma isnan_spec (x : float) : isnan x = true <-> Prim2SF x = S754_nan.
Proof.
  unfold isnan, is_nan. rewrite FloatAxioms.eqb_spec. unfold SFeqb.
  destruct (Prim2SF x) as [s|s| |s m e] eqn:E.
  1, 2, 4: rewrite SFcompare_refl by discriminate; split; discriminate.
  split; reflexivity.
Qed.

Lemma isnan_false (x : float) : isnan x = false <-> Prim2SF x <> S754_nan.
Proof. rewrite <- isnan_spec. destruct (isnan x); split; congruence. Qed.

Lemma is_finite_real (x : float) : PrimFloat.is_finite x = true -> SFreal (Prim2SF x).
Proof.
  unfold is_finite, is_infinity. intros H.
  apply negb_true_iff, orb_false_iff in H as [Hn Hi].
  apply isnan_false in Hn.
  rewrite FloatAxioms.eqb_spec, FloatAxioms.abs_spec in Hi.
  change (Prim2SF infinity) with (S754_infinity false) in Hi.
  destruct (Prim2SF x) as [s|s| |s m e]; simpl; try exact I.
  - destruct s; vm_compute in Hi; discriminate.
  - congruence.
Qed.

Lemma SFreal_not_nan (s : spec_float) : SFreal s -> s <> S754_nan.
Proof. destruct s; simpl; congruence || tauto. Qed.

Lemma shape_not_nan (sx : bool) (s : spec_float) : shape sx s -> s <> S754_nan.
Proof. destruct s; simpl; congruence. Qed.

Lemma not_nan_shape (s : spec_float) : s <> S754_nan -> exists sx, shape sx s.
Proof. destruct s as [b|b| |b m e]; try congruence; intros _; exists b; reflexivity. Qed.

Lemma shape_sgn (b : bool) (s : spec_float) : shape b s -> sgn b s.
Proof. destruct s; simpl; auto. Qed.

(** ** Rounding

    The rounding of a non-negative mantissa is a zero, a finite number or an
    infinity of the requested sign: never a NaN. This holds in every format. *)

Create HintDb rounding.

Section Rounding.

Variables prc emx : Z.

Lemma shr_1_nonneg (mrs : shr_record) :
  (0 <= shr_m mrs)%Z -> (0 <= shr_m (shr_1 mrs))%Z.
Proof. destruct mrs as [[|[p|p|]|[p|p|]] r s]; simpl; lia. Qed.

Lemma iter_pos_nonneg (p : positive) : forall mrs : shr_record,
  (0 <= shr_m mrs)%Z -> (0 <= shr_m (SpecFloat.iter_pos shr_1 p mrs))%Z.
Proof. induction p; simpl; intros mrs H; auto using shr_1_nonneg. Qed.

Lemma shr_nonneg (mrs : shr_record) (e n : Z) :
  (0 <= shr_m mrs)%Z -> (0 <= shr_m (fst (shr mrs e n)))%Z.
Proof. destruct n; simpl; auto using iter_pos_nonneg. Qed.

Lemma shr_fexp_nonneg (m e : Z) (l : location) :
  (0 <= m)%Z -> (0 <= shr_m (fst (shr_fexp prc emx m e l)))%Z.
Proof.
  intros H. unfold shr_fexp. apply shr_nonneg.
  destruct l as [|[]]; simpl; exact H.
Qed.

Lemma round_nearest_even_nonneg (m : Z) (l : location) :
  (0 <= m)%Z -> (0 <= round_nearest_even m l)%Z.
Proof. destruct l as [|[]]; simpl; try destruct (Z.even m); lia. Qed.

Hint Resolve shr_fexp_nonneg round_nearest_even_nonneg : rounding.

Lemma binary_round_aux_shape (sx : bool) (mx ex : Z) (lx : location) :
  (0 <= mx)%Z -> shape sx (binary_round_aux prc emx sx mx ex lx).
Proof.
  intros H. unfold binary_round_aux.
  assert (0 <= shr_m (fst (shr_fexp prc emx mx ex lx)))%Z as H1 by auto with rounding.
  destruct (shr_fexp prc emx mx ex lx) as [mrs' e']. simpl in H1.
  assert (0 <= shr_m (fst (shr_fexp prc emx
                             (round_nearest_even (shr_m mrs') (loc_of_shr_record mrs'))
                             e' loc_Exact)))%Z as H2 by auto with rounding.
  destruct (shr_fexp prc emx _ e' loc_Exact) as [mrs'' e'']. simpl in H2.
  destruct (shr_m mrs''); simpl; try reflexivity; try lia.
  destruct (Z.leb _ _); reflexivity.
Qed.

Lemma binary_round_shape (sx : bool) (mx : positive) (ex : Z) :
  shape sx (binary_round prc emx sx mx ex).
Proof.
  unfold binary_round. destruct (shl_align _ _ _) as [mz ez].
  apply binary_round_aux_shape. lia.
Qed.

Lemma binary_normalize_not_nan (m e : Z) (sz : bool) :
  binary_normalize prc emx m e sz <> S754_nan.
Proof.
  destruct m as [|mp|mp]; simpl; [congruence| |].
  - apply (shape_not_nan false), binary_round_shape.
  - apply (shape_not_nan true), binary_round_shape.
Qed.

End Rounding.

(** ** Sums and quotients that are not NaN *)

(** Adding a real value to anything but a NaN does not give a NaN. *)
Lemma add_not_nan (x y : float) :
  Prim2SF x <> S754_nan -> SFreal (Prim2SF y) -> Prim2SF (x + y) <> S754_nan.
Proof.
  rewrite FloatAxioms.add_spec. unfold SF64add, SFadd.
  destruct (Prim2SF x) as [[]|[]| |sx mx ex], (Prim2SF y) as [[]|[]| |sy my ey];
    simpl; try congruence; try contradiction; intros _ _.
  apply binary_normalize_not_nan.
Qed.

Lemma div_core_nonneg (mx : positive) (ex : Z) (my : positive) (ey : Z) :
  (0 <= fst (fst (SFdiv_core_binary prec emax (Zpos mx) ex (Zpos my) ey)))%Z.
Proof.
  unfold SFdiv_core_binary.
  match goal with
  | |- context [Z.div_eucl ?a ?b] =>
      assert (0 <= a)%Z as Ha;
      [|pose proof (Z.div_pos a b Ha ltac:(lia)) as Hq;
        unfold Z.div in Hq; destruct (Z.div_eucl a b); exact Hq]
  end.
  match goal with
  | |- context [match ?s with Z0 => _ | Zpos _ => _ | Zneg _ => _ end] =>
      destruct s eqn:Es
  end; try lia.
  apply Z.shiftl_nonneg. lia.
Qed.

(** Dividing by a finite non-zero number keeps a value that is not NaN so,
    with the sign of the quotient. *)
Lemma div_shape (x c : float) (sx sc : bool) (m : positive) (e : Z) :
  shape sx (Prim2SF x) -> Prim2SF c = S754_finite sc m e ->
  shape (xorb sx sc) (Prim2SF (x / c)).
Proof.
  intros Hx Hc. rewrite FloatAxioms.div_spec, Hc. unfold SF64div, SFdiv.
  destruct (Prim2SF x) as [s|s| |s mx ex]; simpl in Hx; try contradiction; subst; simpl;
    try reflexivity.
  pose proof (div_core_nonneg mx ex m e) as Hq.
  destruct (SFdiv_core_binary _ _ _ _ _ _) as [[mz ez] lz]. simpl in Hq.
  apply binary_round_aux_shape, Hq.
Qed.

Lemma div_not_nan (x c : float) (sc : bool) (m : positive) (e : Z) :
  Prim2SF x <> S754_nan -> Prim2SF c = S754_finite sc m e ->
  Prim2SF (x / c) <> S754_nan.
Proof.
  intros Hx Hc. destruct (not_nan_shape _ Hx) as [sx Hs].
  eapply shape_not_nan, div_shape; eauto.
Qed.

(** ** The count as a binary64 number

    A count between 1 and 2^53 converts exactly: to a positive finite number. *)

Lemma digits2_pos_iter (p k : positive) :
  digits2_pos (Pos.iter xO p k) = (digits2_pos p + k)%positive.
Proof.
  induction k using Pos.peano_ind.
  - simpl. lia.
  - rewrite Pos.iter_succ. simpl. rewrite IHk. lia.
Qed.

Lemma digits2_pos_bound (p : positive) (n : Z) :
  (Zpos p < 2 ^ n)%Z -> (0 <= n)%Z -> (Zpos (digits2_pos p) <= n)%Z.
Proof.
  revert n. induction p as [p IH|p IH|]; intros n H Hn; simpl;
    assert (n <> 0)%Z by (intros ->; simpl in H; lia); [| |lia];
    specialize (IH (n - 1)%Z); replace n with (Z.succ (n - 1)) in H by lia;
    rewrite Z.pow_succ_r in H by lia; lia.
Qed.

(** A 53-digit mantissa in the exponent range is its own rounding. *)
Lemma binary_round_aux_exact (sx : bool) (mz : positive) (ez : Z) :
  Zpos (digits2_pos mz) = 53%Z -> (-1074 <= ez <= 971)%Z ->
  binary_round_aux prec emax sx (Zpos mz) ez loc_Exact = S754_finite sx mz ez.
Proof.
  intros Hd He.
  assert (shr_fexp prec emax (Zpos mz) ez loc_Exact
          = (Build_shr_record (Zpos mz) false false, ez)) as Hs.
  { unfold shr_fexp, fexp, emin, Zdigits2. rewrite Hd.
    change prec with 53%Z. change emax with 1024%Z.
    replace (Z.max (53 + ez - 53) (3 - 1024 - 53) - ez)%Z with 0%Z by lia.
    reflexivity. }
  unfold binary_round_aux. rewrite Hs. simpl. rewrite Hs. simpl.
  change (emax - prec)%Z with 971%Z.
  destruct (Z.leb_spec ez 971); [reflexivity|lia].
Qed.

Lemma float_of_count_finite (n : nat) :
  (0 < n)%nat -> (Z.of_nat n < 2 ^ 53)%Z ->
  exists m e, Prim2SF (float_of_count n) = S754_finite false m e.
Proof.
  intros Hpos Hlt. unfold float_of_count.
  rewrite FloatAxioms.of_uint63_spec, Uint63.of_Z_spec.
  rewrite Z.mod_small by (change wB with (2 ^ 63)%Z; lia).
  destruct (Z.of_nat n) as [|p|p] eqn:En; try lia.
  simpl. unfold binary_round.
  pose proof (digits2_pos_bound p 53 Hlt ltac:(lia)) as Hd.
  assert (1 <= Zpos (digits2_pos p))%Z as Hd1 by lia.
  unfold shl_align, fexp, emin. change prec with 53%Z. change emax with 1024%Z.
  replace (Z.max (Zpos (digits2_pos p) + 0 - 53) (3 - 1024 - 53) - 0)%Z
    with (Zpos (digits2_pos p) - 53)%Z by lia.
  replace (Z.max (Zpos (digits2_pos p) + 0 - 53) (3 - 1024 - 53))%Z
    with (Zpos (digits2_pos p) - 53)%Z by lia.
  destruct (Zpos (digits2_pos p) - 53)%Z as [|k|k] eqn:Ek; try lia.
  - eexists _, _. apply binary_round_aux_exact; lia.
  - eexists _, _. change 53%Z with prec. change 1024%Z with emax.
    apply binary_round_aux_exact; [rewrite digits2_pos_iter|]; lia.
Qed.

(** ** Signs *)

Lemma add_sgn (b : bool) (x y : float) :
  sgn b (Prim2SF x) -> sgn b (Prim2SF y) -> sgn b (Prim2SF (x + y)).
Proof.
  rewrite FloatAxioms.add_spec. unfold SF64add, SFadd.
  destruct (Prim2SF x) as [sx|sx| |sx mx ex], (Prim2SF y) as [sy|sy| |sy my ey];
    simpl; try contradiction; intros Hx Hy; subst; auto.
  - destruct sx, sy; exact I.
  - destruct b; reflexivity.
  - apply shape_sgn. destruct b; simpl; apply binary_round_shape.
Qed.

Lemma div_sgn (b : bool) (x c : float) (m : positive) (e : Z) :
  sgn b (Prim2SF x) -> Prim2SF c = S754_finite false m e -> sgn b (Prim2SF (x / c)).
Proof.
  intros Hx Hc.
  destruct (Prim2SF x) as [s|s| |s mx ex] eqn:Ex; simpl in Hx; try contradiction.
  - rewrite FloatAxioms.div_spec, Hc, Ex. exact I.
  - subst. rewrite FloatAxioms.div_spec, Hc, Ex. simpl. apply xorb_false_r.
  - subst. apply shape_sgn. rewrite <- (xorb_false_r b).
    eapply div_shape; [rewrite Ex; reflexivity|exact Hc].
Qed.

Lemma leb_zero_sgn (x : float) : (0 <=? x)%float = true <-> sgn false (Prim2SF x).
Proof.
  rewrite FloatAxioms.leb_spec. change (Prim2SF 0) with (S754_zero false).
  destruct (Prim2SF x) as [[]|[]| |[] m e]; vm_compute; split; congruence || tauto.
Qed.

Lemma leb_sgn_zero (x : float) : (x <=? 0)%float = true <-> sgn true (Prim2SF x).
Proof.
  rewrite FloatAxioms.leb_spec. change (Prim2SF 0) with (S754_zero false).
  destruct (Prim2SF x) as [[]|[]| |[] m e]; vm_compute; split; congruence || tauto.
Qed.

(** ** Agreement up to the sign of zero *)

Lemma SFsim_refl (a : spec_float) : SFsim a a.
Proof. left; reflexivity. Qed.

Lemma SFsim_add (a b y : spec_float) :
  SFsim a b -> SFsim (SFadd prec emax a y) (SFadd prec emax b y).
Proof.
  intros [->|[Ha Hb]]; [apply SFsim_refl|].
  destruct a as [sa| | |]; try contradiction. destruct b as [sb| | |]; try contradiction.
  destruct y as [sy|sy| |sy my ey]; simpl; try apply SFsim_refl.
  right. destruct sa, sb, sy; simpl; auto.
Qed.

Lemma SFsim_add_zero_r (a b : spec_float) :
  SFsim a b -> SFsim (SFadd prec emax a (S754_zero false)) b.
Proof.
  intros [->|[Ha Hb]].
  - destruct b as [[]|[]| |s m e]; simpl; try apply SFsim_refl. right; simpl; auto.
  - destruct a as [[]| | |]; try contradiction; right; simpl; auto.
Qed.

Lemma SFsim_add_zero_l (x : spec_float) :
  SFsim x (SFadd prec emax (S754_zero false) x).
Proof.
  destruct x as [[]|[]| |s m e]; simpl; try apply SFsim_refl. right; simpl; auto.
Qed.

Lemma SFsim_div (a b : spec_float) (sc : bool) (m : positive) (e : Z) :
  SFsim a b ->
  SFsim (SFdiv prec emax a (S754_finite sc m e)) (SFdiv prec emax b (S754_finite sc m e)).
Proof.
  intros [->|[Ha Hb]]; [apply SFsim_refl|].
  destruct a as [sa| | |]; try contradiction. destruct b as [sb| | |]; try contradiction.
  right; simpl; auto.
Qed.

(** Values that agree up to the sign of zero compare equal. *)
Lemma SFsim_eqb (x y : float) :
  SFsim (Prim2SF x) (Prim2SF y) -> Prim2SF x <> S754_nan -> (x =? y)%float = true.
Proof.
  rewrite FloatAxioms.eqb_spec. unfold SFeqb. intros [<-|[Hx Hy]] Hn.
  - rewrite SFcompare_refl; auto.
  - destruct (Prim2SF x); try contradiction. destruct (Prim2SF y); try contradiction.
    reflexivity.
Qed.

(** * The mean of a row *)

Lemma null_or_real_valid (x : float) :
  null_or_real x = true -> isnan x = false -> SFreal (Prim2SF x).
Proof.
  unfold null_or_real. intros H Hn. rewrite Hn in H. simpl in H.
  apply is_finite_real, H.
Qed.

Lemma replace_nan_real (a : list float) :
  Forall (fun x => null_or_real x = true) a ->
  Forall (fun x => SFreal (Prim2SF x)) (replace_nan a).
Proof.
  unfold replace_nan. induction 1 as [|x a Hx _ IH]; simpl; constructor; auto.
  destruct (isnan x) eqn:E; [exact I | apply null_or_real_valid; assumption].
Qed.

Lemma fold_add_not_nan (l : list float) : forall acc,
  Forall (fun x => SFreal (Prim2SF x)) l ->
  Prim2SF acc <> S754_nan ->
  Prim2SF (fold_left PrimFloat.add l acc) <> S754_nan.
Proof.
  induction l as [|x l IH]; simpl; intros acc Hl Hacc; [assumption|].
  inversion Hl; subst. apply IH; [assumption|]. apply add_not_nan; assumption.
Qed.

Lemma np_sum_not_nan (l : list float) :
  Forall (fun x => SFreal (Prim2SF x)) l -> Prim2SF (np_sum l) <> S754_nan.
Proof.
  destruct l as [|x l]; simpl; intros Hl.
  - change (Prim2SF 0) with (S754_zero false). congruence.
  - inversion Hl; subst. apply fold_add_not_nan; auto using SFreal_not_nan.
Qed.

Lemma count_valid_le (a : list float) : count_valid a <= length a.
Proof. unfold count_valid. apply length_filter. Qed.

Lemma count_valid_pos (a : list float) x :
  x ∈ a -> isnan x = false -> 0 < count_valid a.
Proof.
  intros Hin Hx. unfold count_valid.
  assert (x ∈ filter (fun x => isnan x = false) a) as H
    by (apply list_elem_of_filter; auto).
  destruct (filter _ a); [inversion H | simpl; lia].
Qed.

(** A row of real or null cells with an observed value has a mean. *)
Lemma nanmean_not_nan (a : list float) x :
  Forall (fun x => null_or_real x = true) a ->
  (Z.of_nat (length a) < 2 ^ 53)%Z ->
  x ∈ a -> isnan x = false ->
  isnan (nanmean a) = false.
Proof.
  intros Hreal Hlen Hin Hx. apply isnan_false. unfold nanmean.
  pose proof (count_valid_pos a x Hin Hx) as Hpos.
  pose proof (count_valid_le a) as Hle.
  destruct (float_of_count_finite (count_valid a) Hpos ltac:(lia)) as (m & e & Hc).
  eapply div_not_nan; [|exact Hc].
  apply np_sum_not_nan, replace_nan_real, Hreal.
Qed.

Lemma fold_add_zeros (l : list float) :
  Forall (fun x => isnan x = true) l ->
  fold_left PrimFloat.add (replace_nan l) 0%float = 0%float.
Proof.
  induction 1 as [|x l Hx _ IH]; simpl; [reflexivity|].
  rewrite Hx. exact IH.
Qed.

(** A row with no observed value (an empty row included) has none. *)
Lemma nanmean_all_nan (a : list float) :
  Forall (fun x => isnan x = true) a -> isnan (nanmean a) = true.
Proof.
  intros H. unfold nanmean, count_valid.
  assert (filter (fun x => isnan x = false) a = []) as ->.
  { induction H as [|x l Hx _ IH]; [reflexivity|].
    rewrite filter_cons_False by congruence. exact IH. }
  assert (np_sum (replace_nan a) = 0%float) as ->.
  { destruct H as [|x l Hx Hl]; [reflexivity|]. simpl. rewrite Hx.
    apply fold_add_zeros, Hl. }
  reflexivity.
Qed.

(** * The loop and the whole routine *)

Lemma loc_set_middle cols (done rest : list Row) (x : Row) vals :
  loc_set (length done) vals (mkDF cols (done ++ x :: rest))
  = mkDF cols (done ++ mkRow (Date x) (Day x) vals :: rest).
Proof.
  unfold loc_set. simpl. f_equal.
  rewrite <- (Nat.add_0_r (length done)), alter_app_r. reflexivity.
Qed.

(** One iteration, on a frame whose rows before [index] are already done. *)
Lemma fill_row_step_run (d : ref) (w : World) cols (done rest : list Row) (x : Row) :
  heap w !! d = Some (mkDF cols (done ++ x :: rest)) ->
  fill_row_step d (length done, x) w
  = Some (tt, mkWorld (<[d := mkDF cols (done ++ imputed_row x :: rest)]> (heap w))
                      (stdout w)).
Proof.
  intros Hd. unfold fill_row_step, imputed_row.
  destruct (isnan (nanmean (irradiance x))) eqn:E; simpl.
  - unfold IO.ret. rewrite list_insert_id by exact Hd. destruct w; reflexivity.
  - unfold IO.update. rewrite Hd, loc_set_middle. reflexivity.
Qed.

Lemma for_each_cons {A} (x : A) (l : list A) (body : A -> IO.M unit) (w : World) :
  IO.for_each (x :: l) body w
  = match body x w with
    | Some (_, w') => IO.for_each l body w'
    | None => None
    end.
Proof. reflexivity. Qed.

Lemma for_each_fill_run (d : ref) (rest : list Row) :
  forall (done : list Row) (w : World) cols,
  heap w !! d = Some (mkDF cols (done ++ rest)) ->
  IO.for_each (imap (fun i r => (length done + i, r)) rest) (fill_row_step d) w
  = Some (tt, mkWorld (<[d := mkDF cols (done ++ map imputed_row rest)]> (heap w))
                      (stdout w)).
Proof.
  induction rest as [|x rest IH]; intros done w cols Hd.
  - simpl. unfold IO.ret. rewrite list_insert_id by exact Hd. destruct w; reflexivity.
  - rewrite imap_cons, for_each_cons, Nat.add_0_r.
    rewrite (fill_row_step_run d w cols done rest x Hd).
    assert (d < length (heap w)) as Hlt by (eapply lookup_lt_Some; exact Hd).
    rewrite (imap_ext _ (fun i r => (length (done ++ [imputed_row x]) + i, r)))
      by (intros i r _; simpl; rewrite length_app; simpl; f_equal; lia).
    rewrite (IH (done ++ [imputed_row x]) _ cols).
    + simpl. rewrite list_insert_insert_eq, <- app_assoc. reflexivity.
    + simpl. rewrite list_lookup_insert_eq by exact Hlt.
      rewrite <- app_assoc. reflexivity.
Qed.

(** What a call does to the process: a new frame appended to the heap, three
    lines appended to the output, the address of the new frame returned. *)
Lemma fill_run (w : World) (df : ref) (t : DataFrame) :
  heap w !! df = Some t ->
  fill_missing_irradiance_data df w
  = Some (length (heap w),
          mkWorld (heap w ++ [imputed t])
                  (stdout w ++ [LineColumns (drop 2 (columns t));
                                LineInitialNaN (isnull_sum t);
                                LineFinalNaN (isnull_sum (imputed t))])).
Proof.
  intros Hdf. unfold fill_missing_irradiance_data, IO.bind at 1, IO.copy.
  rewrite Hdf. unfold IO.bind at 1, IO.deref at 1. simpl heap.
  rewrite list_lookup_middle by reflexivity.
  unfold IO.bind at 1, IO.print at 1. unfold IO.bind at 1, IO.print at 1.
  unfold IO.bind at 1, iterrows. simpl heap; simpl stdout.
  destruct t as [cols rows].
  rewrite (for_each_fill_run (length (heap w)) rows [] _ cols)
    by (simpl; apply list_lookup_middle; reflexivity).
  simpl. unfold IO.bind, IO.deref, IO.print, IO.ret. simpl.
  rewrite <- (Nat.add_0_r (length (heap w))), insert_app_r. simpl.
  rewrite Nat.add_0_r, list_lookup_middle by reflexivity.
  cbn [heap stdout]. rewrite <- !app_assoc. reflexivity.
Qed.

(** The returned table is the row-wise image of the input. *)
Lemma impute_imputed (t : DataFrame) : impute t = imputed t.
Proof.
  unfold impute. rewrite (fill_run (mkWorld [t] []) 0 t) by reflexivity.
  reflexivity.
Qed.

Lemma impute_row (t : DataFrame) (i : nat) :
  values (impute t) !! i = imputed_row <$> values t !! i.
Proof. rewrite impute_imputed. simpl. apply list_lookup_fmap. Qed.

(** * The routine on the examples *)

Example impute_sample_df :
  impute sample_df
  = mkDF [LStr "Date"; LStr "Day"; LInt 2013; LInt 2014; LInt 2015; LInt 2016]
         [ mkRow 1672531200000000000 1 [0.1; 0.15; 0.12333333333333334; 0.12]%float;
           mkRow 1672531500000000000 1 [0.2; 0.21666666666666667; 0.22; 0.23]%float;
           mkRow 1672531800000000000 1 [0.33333333333333331; 0.35; 0.32; 0.33]%float;
           mkRow 1672532100000000000 1 [0.4; 0.45; 0.42666666666666669; 0.43]%float;
           mkRow 1672532400000000000 1 [0.5; 0.55; 0.52; 0.52333333333333332]%float ].
Proof. vm_compute. reflexivity. Qed.

Example impute_example_missing : impute example_missing = example_missing.
Proof. vm_compute. reflexivity. Qed.

Example sample_df_in_model : IrradianceTable sample_df.
Proof. reflexivity. Qed.

(** Why the data model asks for real readings: opposite infinities in a row
    leave it without a mean, so its null cell stays null. *)
Example infinite_readings_have_no_mean :
  isnan (nanmean [infinity; neg_infinity; nan]) = true
  /\ null_or_real infinity = false.
Proof. split; reflexivity. Qed.

(** * Rows after imputation *)

Lemma imputed_row_ids (r : Row) :
  Date (imputed_row r) = Date r /\ Day (imputed_row r) = Day r.
Proof. unfold imputed_row. destruct (isnan _); split; reflexivity. Qed.

Lemma imputed_row_length (r : Row) :
  length (irradiance (imputed_row r)) = length (irradiance r).
Proof.
  unfold imputed_row. destruct (isnan _); simpl; [reflexivity|].
  unfold fillna. apply length_map.
Qed.

Lemma fillna_lookup (m : float) (a : list float) (j : nat) :
  fillna m a !! j = (fun x => if isnan x then m else x) <$> a !! j.
Proof. unfold fillna. apply list_lookup_fmap. Qed.

Lemma fillna_no_nan (m : float) (a : list float) :
  Forall (fun x => isnan x = false) a -> fillna m a = a.
Proof.
  unfold fillna. induction 1 as [|x a Hx _ IH]; simpl; [reflexivity|].
  rewrite Hx, IH. reflexivity.
Qed.

Lemma fillna_valid (m : float) (a : list float) :
  isnan m = false -> Forall (fun x => isnan x = false) (fillna m a).
Proof.
  intros Hm. unfold fillna. induction a as [|x a IH]; simpl; constructor; auto.
  destruct (isnan x) eqn:E; assumption.
Qed.

(** A cell that holds a value keeps it. *)
Lemma imputed_row_keeps (r : Row) (j : nat) (c : float) :
  irradiance r !! j = Some c -> isnan c = false ->
  irradiance (imputed_row r) !! j = Some c.
Proof.
  intros Hj Hc. unfold imputed_row.
  destruct (isnan (nanmean (irradiance r))); simpl; [exact Hj|].
  rewrite fillna_lookup, Hj. simpl. rewrite Hc. reflexivity.
Qed.

(** A null cell of a row that has a mean receives that mean. *)
Lemma imputed_row_fills (r : Row) (j : nat) (c : float) :
  irradiance r !! j = Some c -> isnan c = true ->
  isnan (nanmean (irradiance r)) = false ->
  irradiance (imputed_row r) !! j = Some (nanmean (irradiance r)).
Proof.
  intros Hj Hc Hm. unfold imputed_row. rewrite Hm. simpl.
  rewrite fillna_lookup, Hj. simpl. rewrite Hc. reflexivity.
Qed.

Lemma imputed_row_skip (r : Row) :
  isnan (nanmean (irradiance r)) = true -> imputed_row r = r.
Proof. intros E. unfold imputed_row. rewrite E. reflexivity. Qed.

Lemma imputed_row_fill (r : Row) :
  isnan (nanmean (irradiance r)) = false ->
  imputed_row r = mkRow (Date r) (Day r) (fillna (nanmean (irradiance r)) (irradiance r)).
Proof. intros E. unfold imputed_row. rewrite E. reflexivity. Qed.

Lemma imputed_row_idem (r : Row) : imputed_row (imputed_row r) = imputed_row r.
Proof.
  destruct (isnan (nanmean (irradiance r))) eqn:E.
  - rewrite (imputed_row_skip r E). apply imputed_row_skip, E.
  - rewrite (imputed_row_fill r E). unfold imputed_row. simpl.
    rewrite (fillna_no_nan _ (fillna _ _)) by (apply fillna_valid, E).
    destruct (isnan (nanmean (fillna _ _))); reflexivity.
Qed.

Lemma row_nulls_imputed_le (r : Row) : row_nulls (imputed_row r) <= row_nulls r.
Proof.
  unfold imputed_row, row_nulls.
  destruct (isnan (nanmean (irradiance r))) eqn:E; simpl; [lia|].
  pose proof (fillna_valid _ (irradiance r) E) as H.
  induction H as [|x l Hx _ IH]; simpl; [lia|].
  rewrite filter_cons_False by congruence. exact IH.
Qed.

Lemma row_nulls_filled (r : Row) :
  isnan (nanmean (irradiance r)) = false -> row_nulls (imputed_row r) = 0.
Proof.
  intros E. unfold imputed_row, row_nulls. rewrite E. simpl.
  pose proof (fillna_valid _ (irradiance r) E) as H.
  induction H as [|x l Hx _ IH]; simpl; [reflexivity|].
  rewrite filter_cons_False by congruence. exact IH.
Qed.

Lemma row_nulls_pos (r : Row) (c : float) :
  c ∈ irradiance r -> isnan c = true -> 0 < row_nulls r.
Proof.
  intros Hin Hc. unfold row_nulls.
  assert (c ∈ filter (fun x => isnan x = true) (irradiance r)) as H
    by (apply list_elem_of_filter; auto).
  destruct (filter _ _); [inversion H | simpl; lia].
Qed.

Lemma isnull_sum_imputed_le (t : DataFrame) : isnull_sum (imputed t) <= isnull_sum t.
Proof.
  unfold isnull_sum, imputed. simpl.
  induction (values t) as [|r rows IH]; simpl; [lia|].
  pose proof (row_nulls_imputed_le r). lia.
Qed.

(** * The data model, unfolded *)

Lemma IrradianceTable_row (t : DataFrame) (r : Row) :
  IrradianceTable t -> r ∈ values t ->
  length (irradiance r) = length (drop 2 (columns t))
  /\ Forall (fun x => null_or_real x = true) (irradiance r)
  /\ (Z.of_nat (length (irradiance r)) < 2 ^ 53)%Z.
Proof.
  unfold IrradianceTable, is_irradiance_table. intros H Hr.
  apply andb_true_iff in H as [H Hrows]. apply andb_true_iff in H as [_ Hc].
  apply Z.ltb_lt in Hc.
  rewrite forallb_forall in Hrows.
  specialize (Hrows r (proj1 (list_elem_of_In _ _) Hr)).
  apply andb_true_iff in Hrows as [Hl Hreal]. apply Nat.eqb_eq in Hl.
  split; [exact Hl|]. split.
  - apply Forall_forall. intros x Hx. rewrite forallb_forall in Hreal.
    apply Hreal, list_elem_of_In, Hx.
  - rewrite Hl, length_drop. lia.
Qed.

Lemma IrradianceTable_mean (t : DataFrame) (r : Row) (x : float) :
  IrradianceTable t -> r ∈ values t -> x ∈ irradiance r -> isnan x = false ->
  isnan (nanmean (irradiance r)) = false.
Proof.
  intros Ht Hr Hx Hn. destruct (IrradianceTable_row t r Ht Hr) as (_ & Hreal & Hlen).
  eapply nanmean_not_nan; eassumption.
Qed.

(** * The computed mean against the arithmetic mean of the observed values *)

Lemma fold_add_sim (l : list float) : forall c s : float,
  SFsim (Prim2SF c) (Prim2SF s) ->
  SFsim (Prim2SF (fold_left PrimFloat.add (replace_nan l) c))
        (Prim2SF (fold_left PrimFloat.add (observed l) s)).
Proof.
  unfold observed.
  induction l as [|x l IH]; intros c s H; [exact H|].
  simpl replace_nan. destruct (isnan x) eqn:E.
  - rewrite filter_cons_False by congruence. simpl. apply IH.
    rewrite FloatAxioms.add_spec. change (Prim2SF 0) with (S754_zero false).
    apply SFsim_add_zero_r, H.
  - rewrite filter_cons_True by exact E. simpl. apply IH.
    rewrite !FloatAxioms.add_spec. apply SFsim_add, H.
Qed.

Lemma np_sum_sim (a : list float) :
  SFsim (Prim2SF (np_sum (replace_nan a)))
        (Prim2SF (fold_left PrimFloat.add (observed a) 0%float)).
Proof.
  destruct a as [|x l]; [apply SFsim_refl|].
  simpl replace_nan. simpl np_sum. unfold observed. destruct (isnan x) eqn:E.
  - rewrite filter_cons_False by congruence. apply fold_add_sim, SFsim_refl.
  - rewrite filter_cons_True by exact E. simpl. apply fold_add_sim.
    rewrite FloatAxioms.add_spec. change (Prim2SF 0) with (S754_zero false).
    apply SFsim_add_zero_l.
Qed.

(** [np.nanmean] computes the arithmetic mean of the observed values, up to
    the sign of a zero. *)
Lemma nanmean_arithmetic_mean (a : list float) :
  0 < count_valid a -> (Z.of_nat (length a) < 2 ^ 53)%Z ->
  SFsim (Prim2SF (nanmean a)) (Prim2SF (arithmetic_mean (observed a))).
Proof.
  intros Hpos Hlen. unfold nanmean, arithmetic_mean.
  change (length (observed a)) with (count_valid a).
  pose proof (count_valid_le a) as Hle.
  destruct (float_of_count_finite (count_valid a) Hpos ltac:(lia)) as (m & e & Hc).
  rewrite !FloatAxioms.div_spec, Hc. apply SFsim_div, np_sum_sim.
Qed.

(** * The sign of the mean *)

Lemma fold_add_sgn (b : bool) (l : list float) : forall acc,
  Forall (fun x => sgn b (Prim2SF x)) l ->
  sgn b (Prim2SF acc) ->
  sgn b (Prim2SF (fold_left PrimFloat.add l acc)).
Proof.
  induction l as [|x l IH]; simpl; intros acc Hl Hacc; [assumption|].
  inversion Hl; subst. apply IH; [assumption|]. apply add_sgn; assumption.
Qed.

Lemma replace_nan_sgn (b : bool) (a : list float) :
  Forall (fun x => sgn b (Prim2SF x)) (observed a) ->
  Forall (fun x => sgn b (Prim2SF x)) (replace_nan a).
Proof.
  unfold observed, replace_nan. induction a as [|x a IH]; simpl; intros H; [constructor|].
  destruct (isnan x) eqn:E.
  - rewrite filter_cons_False in H by congruence. constructor; [exact I | auto].
  - rewrite filter_cons_True in H by exact E. inversion H; subst. constructor; auto.
Qed.

Lemma nanmean_sgn (b : bool) (a : list float) :
  0 < count_valid a -> (Z.of_nat (length a) < 2 ^ 53)%Z ->
  Forall (fun x => sgn b (Prim2SF x)) (observed a) ->
  sgn b (Prim2SF (nanmean a)).
Proof.
  intros Hpos Hlen Hobs. unfold nanmean.
  pose proof (count_valid_le a) as Hle.
  destruct (float_of_count_finite (count_valid a) Hpos ltac:(lia)) as (m & e & Hc).
  eapply div_sgn; [|exact Hc].
  apply replace_nan_sgn in Hobs.
  destruct (replace_nan a) as [|x l]; simpl.
  - exact I.
  - inversion Hobs; subst. apply fold_add_sgn; assumption.
Qed.

(** * Properties of the routine *)

Ltac row_of_impute H :=
  rewrite impute_row in H;
  match goal with
  | Hin : values _ !! _ = Some _ |- _ => rewrite Hin in H
  end;
  simpl in H; injection H as <-.

(** C1: in a table of the data model, a year cell of an output row is null
    exactly when every year cell of that input row was null: a row with an
    observed value comes out without nulls, a fully missing row stays fully
    missing. *)
Theorem impute_null_iff_row_missing (t : DataFrame) (i : nat) (r r' : Row) :
  IrradianceTable t ->
  values t !! i = Some r ->
  values (impute t) !! i = Some r' ->
  length (irradiance r') = length (irradiance r)
  /\ forall c', c' ∈ irradiance r' ->
       (isnan c' = true <-> Forall (fun c => isnan c = true) (irradiance r)).
Proof.
  intros Ht Hr Hr'. row_of_impute Hr'.
  split; [apply imputed_row_length|].
  assert (r ∈ values t) as Hin by (eapply list_elem_of_lookup_2; exact Hr).
  intros c' Hc'. destruct (isnan (nanmean (irradiance r))) eqn:E.
  - rewrite (imputed_row_skip r E) in Hc'.
    assert (Forall (fun c => isnan c = true) (irradiance r)) as Hall.
    { apply Forall_forall. intros x Hx. destruct (isnan x) eqn:Ex; [reflexivity|].
      rewrite (IrradianceTable_mean t r x Ht Hin Hx Ex) in E. discriminate. }
    split; [intros _; exact Hall|].
    intros _. rewrite Forall_forall in Hall. apply Hall, Hc'.
  - rewrite (imputed_row_fill r E) in Hc'. simpl in Hc'.
    pose proof (fillna_valid _ (irradiance r) E) as Hv.
    rewrite Forall_forall in Hv. rewrite (Hv c' Hc').
    split; [discriminate|].
    intros Hall. rewrite (nanmean_all_nan _ Hall) in E. discriminate.
Qed.

Lemma impute_null_iff_row_missing_witness :
  length [0.1; 0.15; 0.12333333333333334; 0.12]%float
  = length [0.1; 0.15; nan; 0.12]%float
  /\ forall c', c' ∈ [0.1; 0.15; 0.12333333333333334; 0.12]%float ->
       (isnan c' = true
        <-> Forall (fun c => isnan c = true) [0.1; 0.15; nan; 0.12]%float).
Proof.
  exact (impute_null_iff_row_missing sample_df 0
           (mkRow 1672531200000000000 1 [0.1; 0.15; nan; 0.12]%float)
           (mkRow 1672531200000000000 1 [0.1; 0.15; 0.12333333333333334; 0.12]%float)
           eq_refl eq_refl eq_refl).
Defined.

(** C2: a cell that holds a value before imputation holds the same value
    after it, identifier cells included; a year cell whose content changed was
    null and now holds the mean of its row. *)
Theorem impute_keeps_values (t : DataFrame) (i : nat) (r r' : Row) :
  values t !! i = Some r ->
  values (impute t) !! i = Some r' ->
  Date r' = Date r /\ Day r' = Day r
  /\ (forall j c, irradiance r !! j = Some c -> isnan c = false ->
                  irradiance r' !! j = Some c)
  /\ (forall j c c', irradiance r !! j = Some c -> irradiance r' !! j = Some c' ->
                     c' <> c -> isnan c = true /\ c' = nanmean (irradiance r)).
Proof.
  intros Hr Hr'. row_of_impute Hr'.
  destruct (imputed_row_ids r) as [Hd Hy].
  split; [exact Hd|]. split; [exact Hy|]. split.
  - intros j c. apply imputed_row_keeps.
  - intros j c c' Hj Hj' Hne. destruct (isnan c) eqn:Ec.
    + split; [reflexivity|].
      destruct (isnan (nanmean (irradiance r))) eqn:E.
      * rewrite (imputed_row_skip r E) in Hj'. congruence.
      * rewrite (imputed_row_fills r j c Hj Ec E) in Hj'. congruence.
    + rewrite (imputed_row_keeps r j c Hj Ec) in Hj'. congruence.
Qed.

Lemma impute_keeps_values_witness :
  Date (mkRow 1672531500000000000 1 [0.2; 0.21666666666666667; 0.22; 0.23]%float)
  = Date (mkRow 1672531500000000000 1 [0.2; nan; 0.22; 0.23]%float)
  /\ Day (mkRow 1672531500000000000 1 [0.2; 0.21666666666666667; 0.22; 0.23]%float)
     = Day (mkRow 1672531500000000000 1 [0.2; nan; 0.22; 0.23]%float)
  /\ (forall j c, [0.2; nan; 0.22; 0.23]%float !! j = Some c -> isnan c = false ->
                  [0.2; 0.21666666666666667; 0.22; 0.23]%float !! j = Some c)
  /\ (forall j c c', [0.2; nan; 0.22; 0.23]%float !! j = Some c ->
                     [0.2; 0.21666666666666667; 0.22; 0.23]%float !! j = Some c' ->
                     c' <> c ->
                     isnan c = true /\ c' = nanmean [0.2; nan; 0.22; 0.23]%float).
Proof.
  exact (impute_keeps_values sample_df 1
           (mkRow 1672531500000000000 1 [0.2; nan; 0.22; 0.23]%float)
           (mkRow 1672531500000000000 1 [0.2; 0.21666666666666667; 0.22; 0.23]%float)
           eq_refl eq_refl).
Defined.

(** C3: in a row with an observed value, every cell that was null holds the
    mean numpy computes for the row, which is a number and equals the
    arithmetic mean of the row's observed values; the row
    (0.1, NaN, NaN, 0.12) becomes (0.1, 0.11, 0.11, 0.12). *)
Theorem impute_fills_with_mean :
  (forall (t : DataFrame) (i : nat) (r r' : Row) (j : nat) (c x : float),
      IrradianceTable t ->
      values t !! i = Some r ->
      values (impute t) !! i = Some r' ->
      x ∈ irradiance r -> isnan x = false ->
      irradiance r !! j = Some c -> isnan c = true ->
      irradiance r' !! j = Some (nanmean (irradiance r))
      /\ isnan (nanmean (irradiance r)) = false
      /\ PrimFloat.eqb (nanmean (irradiance r))
                       (arithmetic_mean (observed (irradiance r))) = true)
  /\ impute example_partial = example_partial_filled.
Proof.
  split; [|vm_compute; reflexivity].
  intros t i r r' j c x Ht Hr Hr' Hx Hxn Hj Hc. row_of_impute Hr'.
  assert (r ∈ values t) as Hin by (eapply list_elem_of_lookup_2; exact Hr).
  pose proof (IrradianceTable_mean t r x Ht Hin Hx Hxn) as Hm.
  destruct (IrradianceTable_row t r Ht Hin) as (_ & _ & Hlen).
  split; [apply (imputed_row_fills r j c Hj Hc Hm)|].
  split; [exact Hm|].
  apply SFsim_eqb; [|apply isnan_false, Hm].
  apply nanmean_arithmetic_mean; [|exact Hlen].
  eapply count_valid_pos; eassumption.
Qed.

Lemma impute_fills_with_mean_witness :
  [0.4; 0.45; 0.42666666666666669; 0.43]%float !! 2
  = Some (nanmean [0.4; 0.45; nan; 0.43]%float)
  /\ isnan (nanmean [0.4; 0.45; nan; 0.43]%float) = false
  /\ PrimFloat.eqb (nanmean [0.4; 0.45; nan; 0.43]%float)
                   (arithmetic_mean (observed [0.4; 0.45; nan; 0.43]%float)) = true.
Proof.
  exact (proj1 impute_fills_with_mean sample_df 3
           (mkRow 1672532100000000000 1 [0.4; 0.45; nan; 0.43]%float)
           (mkRow 1672532100000000000 1 [0.4; 0.45; 0.42666666666666669; 0.43]%float)
           2 nan 0.4%float
           eq_refl eq_refl eq_refl
           (list_elem_of_here _ _) eq_refl eq_refl eq_refl).
Defined.

(** C5: imputing an imputed table changes nothing. *)
Theorem impute_idempotent (t : DataFrame) : impute (impute t) = impute t.
Proof.
  rewrite !impute_imputed. unfold imputed. simpl. f_equal.
  rewrite map_map. apply map_ext. intros r. apply imputed_row_idem.
Qed.

(** C8: rows are processed independently: the output row at an index is a
    function of the input row at that index alone, so two tables that agree on
    row [i] have outputs that agree on row [i], whatever their other rows
    hold. *)
Theorem impute_rows_independent (t1 t2 : DataFrame) (i : nat) :
  values t1 !! i = values t2 !! i ->
  values (impute t1) !! i = values (impute t2) !! i
  /\ values (impute t1) !! i = imputed_row <$> values t1 !! i.
Proof. intros H. rewrite !impute_row, H. split; reflexivity. Qed.

Lemma impute_rows_independent_witness :
  values (impute sample_df) !! 0
  = values (impute (mkDF (columns sample_df)
                         (<[1 := mkRow 1672531500000000000 1 [nan; nan; nan; nan]]>
                            (values sample_df)))) !! 0
  /\ values (impute sample_df) !! 0
     = Some (mkRow 1672531200000000000 1 [0.1; 0.15; 0.12333333333333334; 0.12]%float).
Proof.
  apply (impute_rows_independent sample_df
           (mkDF (columns sample_df)
                 (<[1 := mkRow 1672531500000000000 1 [nan; nan; nan; nan]]>
                    (values sample_df)))
           0).
  reflexivity.
Defined.

(** C4: a call on a live frame returns a new frame at a fresh address, with
    the rows, the column labels and the two identifier columns of the input
    (and as many year cells per row); the input frame and every other frame of
    the heap are left as they were. *)
Theorem impute_shape_and_frame (w : World) (df : ref) (t : DataFrame) :
  heap w !! df = Some t ->
  exists d w',
    fill_missing_irradiance_data df w = Some (d, w')
    /\ heap w' !! d = Some (impute t)
    /\ d <> df
    /\ heap w' !! df = Some t
    /\ (forall r, r <> d -> heap w' !! r = heap w !! r)
    /\ length (values (impute t)) = length (values t)
    /\ columns (impute t) = columns t
    /\ map Date (values (impute t)) = map Date (values t)
    /\ map Day (values (impute t)) = map Day (values t)
    /\ map (fun r => length (irradiance r)) (values (impute t))
       = map (fun r => length (irradiance r)) (values t).
Proof.
  intros Hdf. exists (length (heap w)). eexists. split; [apply fill_run, Hdf|].
  assert (df < length (heap w)) as Hlt by (eapply lookup_lt_Some; exact Hdf).
  rewrite impute_imputed. cbn [heap stdout].
  split; [apply list_lookup_middle; reflexivity|].
  split; [lia|].
  split; [rewrite lookup_app_l by exact Hlt; exact Hdf|].
  split.
  { intros r Hne. destruct (decide (r < length (heap w))) as [Hr|Hr].
    - apply lookup_app_l, Hr.
    - rewrite (lookup_ge_None_2 (heap w)) by lia.
      apply lookup_ge_None_2. rewrite length_app. simpl. lia. }
  unfold imputed. simpl. rewrite length_map, !map_map.
  split; [reflexivity|]. split; [reflexivity|].
  split; [apply map_ext; intros r; apply imputed_row_ids|].
  split; [apply map_ext; intros r; apply imputed_row_ids|].
  apply map_ext. intros r. apply imputed_row_length.
Qed.

Lemma impute_shape_and_frame_witness :
  exists d w',
    fill_missing_irradiance_data 0 (mkWorld [sample_df] []) = Some (d, w')
    /\ heap w' !! d = Some (impute sample_df)
    /\ d <> 0
    /\ heap w' !! 0 = Some sample_df
    /\ (forall r, r <> d -> heap w' !! r = [sample_df] !! r)
    /\ length (values (impute sample_df)) = 5
    /\ columns (impute sample_df) = columns sample_df
    /\ map Date (values (impute sample_df)) = map Date (values sample_df)
    /\ map Day (values (impute sample_df)) = map Day (values sample_df)
    /\ map (fun r => length (irradiance r)) (values (impute sample_df))
       = [4; 4; 4; 4; 4].
Proof.
  exact (impute_shape_and_frame (mkWorld [sample_df] []) 0 sample_df eq_refl).
Defined.

(** C6: a call on a live frame always returns a frame, whatever the number of
    rows and of year columns and however many cells are missing; a table whose
    rows are all fully missing, and a table with no year column, come back
    equal to the input. *)
Theorem impute_total (w : World) (df : ref) (t : DataFrame) :
  heap w !! df = Some t ->
  (exists d w', fill_missing_irradiance_data df w = Some (d, w')
                /\ heap w' !! d = Some (impute t))
  /\ (Forall (fun r => Forall (fun c => isnan c = true) (irradiance r)) (values t) ->
      impute t = t)
  /\ (Forall (fun r => irradiance r = []) (values t) -> impute t = t)
  /\ (IrradianceTable t -> length (columns t) = 2 -> impute t = t).
Proof.
  assert (Forall (fun r => Forall (fun c => isnan c = true) (irradiance r)) (values t) ->
          impute t = t) as Hnull.
  { intros Hall. rewrite impute_imputed. unfold imputed. destruct t as [cols rows].
    simpl in *. f_equal. induction Hall as [|r rows Hr _ IH]; simpl; [reflexivity|].
    rewrite IH, (imputed_row_skip r) by (apply nanmean_all_nan, Hr). reflexivity. }
  assert (Forall (fun r => irradiance r = []) (values t) -> impute t = t) as Hempty.
  { intros Hall. apply Hnull. eapply Forall_impl; [exact Hall|].
    intros r Hr. simpl in Hr. rewrite Hr. constructor. }
  intros Hdf. split; [|split; [exact Hnull|split; [exact Hempty|]]].
  - exists (length (heap w)). eexists. split; [apply fill_run, Hdf|].
    rewrite impute_imputed. simpl. apply list_lookup_middle. reflexivity.
  - intros Ht Hcols. apply Hempty, Forall_forall. intros r Hr.
    destruct (IrradianceTable_row t r Ht Hr) as (Hlen & _ & _).
    rewrite length_drop, Hcols in Hlen. apply nil_length_inv, Hlen.
Qed.

Lemma impute_total_witness :
  (exists d w', fill_missing_irradiance_data 0 (mkWorld [example_missing] []) = Some (d, w')
                /\ heap w' !! d = Some (impute example_missing))
  /\ impute example_missing = example_missing
  /\ impute example_no_years = example_no_years.
Proof.
  destruct (impute_total (mkWorld [example_missing] []) 0 example_missing eq_refl)
    as (Hrun & Hnull & _ & _).
  destruct (impute_total (mkWorld [example_no_years] []) 0 example_no_years eq_refl)
    as (_ & _ & _ & Hcols).
  split; [exact Hrun|]. split.
  - apply Hnull. repeat constructor.
  - apply Hcols; reflexivity.
Defined.

(** C7: a call prints the year columns (the labels after the first two), the
    number of missing year cells of the input and the number left in the
    output; the second number is at most the first, and smaller when, in a
    table of the data model, a missing cell shares its row with an observed
    value; the returned table is [impute t] whatever the output held. The
    sample table of the script reports 5 missing cells before and 0 after. *)
Theorem impute_diagnostics :
  (forall (w : World) (df : ref) (t : DataFrame),
      heap w !! df = Some t ->
      exists d w',
        fill_missing_irradiance_data df w = Some (d, w')
        /\ stdout w' = stdout w ++ [LineColumns (drop 2 (columns t));
                                    LineInitialNaN (isnull_sum t);
                                    LineFinalNaN (isnull_sum (impute t))]
        /\ isnull_sum (impute t) <= isnull_sum t
        /\ (IrradianceTable t ->
            (exists r c x, r ∈ values t /\ c ∈ irradiance r /\ isnan c = true
                           /\ x ∈ irradiance r /\ isnan x = false) ->
            isnull_sum (impute t) < isnull_sum t)
        /\ heap w' !! d = Some (impute t))
  /\ (exists d w',
        fill_missing_irradiance_data 0 (mkWorld [sample_df] []) = Some (d, w')
        /\ stdout w' = [LineColumns [LInt 2013; LInt 2014; LInt 2015; LInt 2016];
                        LineInitialNaN 5; LineFinalNaN 0]).
Proof.
  split; [|eexists _, _; split; vm_compute; reflexivity].
  intros w df t Hdf. exists (length (heap w)). eexists.
  split; [apply fill_run, Hdf|]. rewrite impute_imputed. cbn [heap stdout].
  split; [reflexivity|]. split; [apply isnull_sum_imputed_le|].
  split; [|apply list_lookup_middle; reflexivity].
  intros Ht (r & c & x & Hr & Hc & Hcn & Hx & Hxn).
  pose proof (IrradianceTable_mean t r x Ht Hr Hx Hxn) as Hm.
  pose proof (row_nulls_pos r c Hc Hcn) as Hpos.
  pose proof (row_nulls_filled r Hm) as Hzero.
  clear Ht Hdf. unfold isnull_sum, imputed. simpl.
  induction (values t) as [|r0 rows IH]; [inversion Hr|].
  simpl. pose proof (row_nulls_imputed_le r0) as Hle0.
  apply elem_of_cons in Hr as [->|Hr].
  - assert (sum_list_with row_nulls (map imputed_row rows)
            <= sum_list_with row_nulls rows) as Hrest.
    { clear. induction rows as [|r1 rows IH]; simpl; [lia|].
      pose proof (row_nulls_imputed_le r1). lia. }
    lia.
  - specialize (IH Hr). lia.
Qed.

Lemma impute_diagnostics_witness :
  exists d w',
    fill_missing_irradiance_data 0 (mkWorld [sample_df] [LineFinalNaN 7]) = Some (d, w')
    /\ stdout w' = [LineFinalNaN 7;
                    LineColumns [LInt 2013; LInt 2014; LInt 2015; LInt 2016];
                    LineInitialNaN 5; LineFinalNaN 0]
    /\ 0 <= 5
    /\ 0 < 5
    /\ heap w' !! d = Some (impute sample_df).
Proof.
  destruct (proj1 impute_diagnostics (mkWorld [sample_df] [LineFinalNaN 7]) 0 sample_df
              eq_refl) as (d & w' & Hrun & Hout & Hle & Hlt & Hret).
  exists d, w'. split; [exact Hrun|]. split; [exact Hout|]. split; [exact Hle|].
  split; [|exact Hret].
  apply Hlt; [reflexivity|].
  exists (mkRow 1672531200000000000 1 [0.1; 0.15; nan; 0.12]%float), nan, 0.1%float.
  split; [apply list_elem_of_here|].
  split; [apply list_elem_of_further, list_elem_of_further, list_elem_of_here|].
  split; [reflexivity|]. split; [apply list_elem_of_here | reflexivity].
Defined.

(** ** The plotting script on a sheet *)

Lemma omap_cons_Some {A B} (f : A -> option B) (x : A) (l : list A) (y : B) :
  f x = Some y -> omap f (x :: l) = y :: omap f l.
Proof. intros H. cbn. rewrite H. reflexivity. Qed.

(** The column [k] of a block of rows that all reach position [k]. *)
Lemma omap_column (k : nat) (rws : list (list float)) :
  Forall (fun row => k < length row) rws ->
  length (omap (fun row : list float => row !! k) rws) = length rws
  /\ forall i row, rws !! i = Some row ->
       omap (fun row : list float => row !! k) rws !! i = row !! k.
Proof.
  induction 1 as [|row0 rws Hk _ [IHlen IHget]].
  - split; [reflexivity|]. intros i row Hi. discriminate.
  - destruct (lookup_lt_is_Some_2 row0 k Hk) as [c Hc].
    rewrite (omap_cons_Some (fun row : list float => row !! k) row0 rws c Hc).
    split; [simpl; rewrite IHlen; reflexivity|].
    intros [|i] row Hi.
    + injection Hi as <-. symmetry. exact Hc.
    + apply IHget, Hi.
Qed.

Lemma column_values_omap (k : nat) (rws : list (list float)) :
  Forall (fun row => k < length row) rws ->
  Plot.column_values k rws = Some (omap (fun row : list float => row !! k) rws).
Proof.
  induction 1 as [|row0 rws Hk _ IH]; [reflexivity|].
  destruct (lookup_lt_is_Some_2 row0 k Hk) as [c Hc].
  rewrite (omap_cons_Some (fun row : list float => row !! k) row0 rws c Hc).
  simpl. rewrite Hc, IH. reflexivity.
Qed.

Lemma broadcast_to_same (zs : list float) (n : nat) :
  length zs = n -> Plot.broadcast_to zs n = Some zs.
Proof. intros H. unfold Plot.broadcast_to. rewrite (proj2 (Nat.eqb_eq _ _) H). reflexivity. Qed.

(** The loop on consistent arguments: one line per label. *)
Lemma plot_years_run (rws : list (list float)) (n num_years : nat)
    (labels : list Label) : forall i0 : nat,
  i0 + length labels <= num_years ->
  Forall (fun row => i0 + length labels <= length row) rws ->
  length rws = n ->
  Plot.plot_years rws n num_years i0 labels
  = Plot.Returned
      (imap (fun k year =>
               Plot.mkLine3D (replicate n (i0 + k)) (seq 0 n)
                 (omap (fun row : list float => row !! (i0 + k)) rws) (i0 + k) year)
            labels).
Proof.
  induction labels as [|year rest IH]; intros i0 Hcol Hwide Hlen; [reflexivity|].
  simpl in Hcol.
  assert (Forall (fun row : list float => i0 < length row) rws) as Hi0.
  { eapply Forall_impl; [exact Hwide|]. intros row Hrow. simpl in Hrow. lia. }
  cbn [Plot.plot_years]. rewrite (column_values_omap i0 rws Hi0).
  rewrite (proj2 (Nat.ltb_lt i0 num_years)) by lia.
  rewrite broadcast_to_same by (rewrite (proj1 (omap_column i0 rws Hi0)); exact Hlen).
  rewrite (IH (S i0)); [| lia | | exact Hlen].
  - rewrite imap_cons, Nat.add_0_r. do 2 f_equal.
    apply imap_ext. intros k y _. simpl. rewrite Nat.add_succ_r. reflexivity.
  - eapply Forall_impl; [exact Hwide|]. intros row Hrow. simpl in Hrow. lia.
Qed.

Lemma quarter_le (n : nat) : n / 4 <= n.
Proof. apply Nat.Div0.div_le_upper_bound. lia. Qed.

(** The script on a readable rectangular sheet with a year column. *)
Lemma main_on_sheet (fs : Plot.FileSystem) (df : DataFrame) :
  fs Plot.EXCEL_FILE_PATH Plot.SHEET_NAME = Some df ->
  rectangular df ->
  drop 2 (columns df) <> [] ->
  Plot.main fs
  = Plot.Returned (Plot.mkSavedImage Plot.OUTPUT_FILENAME Plot.OUTPUT_DPI "tight" true
                                     (sheet_figure df)).
Proof.
  intros Hfs Hrect Hyears. unfold Plot.main, Plot.load_and_preprocess_data.
  rewrite Hfs. cbn -[Nat.div Plot.create_3d_irradiance_plot].
  pose proof (quarter_le (length (values df))) as Hq.
  rewrite length_take, length_map, (Nat.min_l _ _ Hq).
  unfold Plot.create_3d_irradiance_plot.
  rewrite (plot_years_run _ (length (values df) / 4) _ (drop 2 (columns df)) 0).
  - rewrite Nat.eqb_refl. cbn [negb andb].
    destruct (length (drop 2 (columns df)) =? 0)%nat eqn:E.
    + apply Nat.eqb_eq, nil_length_inv in E. contradiction.
    + reflexivity.
  - simpl. lia.
  - apply Forall_forall. intros row Hrow.
    apply subseteq_take in Hrow. apply list_elem_of_fmap in Hrow as (r & -> & Hr).
    unfold rectangular in Hrect. rewrite Forall_forall in Hrect.
    rewrite (Hrect r Hr). simpl. lia.
  - rewrite length_take, length_map. lia.
Qed.


(** Whatever is saved carries the three constants. *)
Lemma saved_image_constants (fs : Plot.FileSystem) (img : Plot.SavedImage) :
  Plot.main fs = Plot.Returned img ->
  Plot.fname img = "irradiance_behaviour_3d.png"%string
  /\ Plot.dpi img = 300%Z
  /\ Plot.zlim (Plot.figure img) = (0, 5000)%Z.
Proof.
  unfold Plot.main. destruct (Plot.load_and_preprocess_data _ _ _) as [l|]; [|discriminate].
  destruct (Plot.create_3d_irradiance_plot _ _ _ _ _) as [fig|e] eqn:Hfig; [|discriminate].
  intros H. injection H as <-. simpl. split; [reflexivity|]. split; [reflexivity|].
  unfold Plot.create_3d_irradiance_plot in Hfig.
  destruct (Plot.plot_years _ _ _ _ _); [|discriminate].
  destruct (negb _ && negb _); [discriminate|].
  destruct (_ =? 0)%nat; [discriminate|].
  injection Hfig as <-. reflexivity.
Qed.

(** C9, as stated, fails: a sheet that holds only the two identifier columns
    is a readable dataset, but the script calls [ax.legend] with [ncol = 0],
    which raises, and saves no image. *)
Lemma no_image_without_year_column :
  ~ (forall (fs : Plot.FileSystem) (df : DataFrame),
        fs Plot.EXCEL_FILE_PATH Plot.SHEET_NAME = Some df ->
        exists img,
          Plot.main fs = Plot.Returned img
          /\ Plot.fname img = "irradiance_behaviour_3d.png"%string
          /\ Plot.dpi img = 300%Z
          /\ Plot.zlim (Plot.figure img) = (0, 5000)%Z).
Proof.
  intros H.
  destruct (H (fun _ _ => Some example_no_years) example_no_years eq_refl)
    as (img & Himg & _).
  vm_compute in Himg. discriminate.
Qed.

(** C9, amended: every image the plotting script saves, whatever the data,
    goes to the file "irradiance_behaviour_3d.png" at 300 DPI with the z axis
    limited to 0..5000; and it saves one for every readable sheet that has at
    least one year column. (A sheet without a year column makes it raise
    before saving.) *)
Theorem plot_configuration_fixed :
  (forall (fs : Plot.FileSystem) (img : Plot.SavedImage),
      Plot.main fs = Plot.Returned img ->
      Plot.fname img = "irradiance_behaviour_3d.png"%string
      /\ Plot.dpi img = 300%Z
      /\ Plot.zlim (Plot.figure img) = (0, 5000)%Z)
  /\ (forall (fs : Plot.FileSystem) (df : DataFrame),
        fs Plot.EXCEL_FILE_PATH Plot.SHEET_NAME = Some df ->
        rectangular df ->
        drop 2 (columns df) <> [] ->
        exists img,
          Plot.main fs = Plot.Returned img
          /\ Plot.fname img = "irradiance_behaviour_3d.png"%string
          /\ Plot.dpi img = 300%Z
          /\ Plot.zlim (Plot.figure img) = (0, 5000)%Z).
Proof.
  split; [exact saved_image_constants|].
  intros fs df Hfs Hrect Hyears. eexists.
  split; [apply (main_on_sheet fs df Hfs Hrect Hyears)|].
  repeat split.
Qed.

Lemma plot_configuration_fixed_witness :
  exists img,
    Plot.main (fun _ _ => Some sample_df) = Plot.Returned img
    /\ Plot.fname img = "irradiance_behaviour_3d.png"%string
    /\ Plot.dpi img = 300%Z
    /\ Plot.zlim (Plot.figure img) = (0, 5000)%Z.
Proof.
  apply (proj2 plot_configuration_fixed (fun _ _ => Some sample_df) sample_df).
  - reflexivity.
  - repeat constructor.
  - discriminate.
Defined.

(** C10, as stated, fails: the three readings of [example_constant] are all
    0.1, their binary64 sum 0.30000000000000004 divided by 3 is
    0.10000000000000002, and that filled value lies above the largest observed
    value of its row. *)
Lemma filled_value_outside_observed_range :
  ~ (forall (t : DataFrame) (i : nat) (r r' : Row) (j : nat) (c c' x : float),
        IrradianceTable t ->
        values t !! i = Some r ->
        values (impute t) !! i = Some r' ->
        x ∈ irradiance r -> isnan x = false ->
        irradiance r !! j = Some c -> isnan c = true ->
        irradiance r' !! j = Some c' ->
        within_observed_range (observed (irradiance r)) c').
Proof.
  intros H.
  specialize (H example_constant 0
                (mkRow 1672531200000000000 1 [0.1; 0.1; 0.1; nan]%float)
                (mkRow 1672531200000000000 1
                       [0.1; 0.1; 0.1; 0.10000000000000002]%float)
                3 nan 0.10000000000000002%float 0.1%float
                eq_refl eq_refl eq_refl (list_elem_of_here _ _)
                eq_refl eq_refl eq_refl eq_refl).
  destruct H as [_ (hi & Hin & Hle)].
  vm_compute in Hin.
  repeat (apply elem_of_cons in Hin as [-> | Hin]; [vm_compute in Hle; discriminate|]).
  inversion Hin.
Qed.

(** C10, amended: in a table of the data model, a cell filled in a row with an
    observed value holds a number (never NaN) on the side of zero of the
    observed values: not negative when none of them is negative, not positive
    when none of them is positive. (It is the binary64 mean, which rounding
    can carry past the largest or the smallest observed value.) *)
Theorem filled_value_keeps_sign (t : DataFrame) (i : nat) (r r' : Row) (j : nat)
    (c c' x : float) :
  IrradianceTable t ->
  values t !! i = Some r ->
  values (impute t) !! i = Some r' ->
  x ∈ irradiance r -> isnan x = false ->
  irradiance r !! j = Some c -> isnan c = true ->
  irradiance r' !! j = Some c' ->
  c' = nanmean (irradiance r)
  /\ isnan c' = false
  /\ (Forall (fun v => PrimFloat.leb 0 v = true) (observed (irradiance r)) ->
      PrimFloat.leb 0 c' = true)
  /\ (Forall (fun v => PrimFloat.leb v 0 = true) (observed (irradiance r)) ->
      PrimFloat.leb c' 0 = true).
Proof.
  intros Ht Hr Hr' Hx Hxn Hj Hc Hj'. row_of_impute Hr'.
  assert (r ∈ values t) as Hin by (eapply list_elem_of_lookup_2; exact Hr).
  pose proof (IrradianceTable_mean t r x Ht Hin Hx Hxn) as Hm.
  destruct (IrradianceTable_row t r Ht Hin) as (_ & _ & Hlen).
  pose proof (count_valid_pos _ x Hx Hxn) as Hpos.
  rewrite (imputed_row_fills r j c Hj Hc Hm) in Hj'. injection Hj' as <-.
  split; [reflexivity|]. split; [exact Hm|]. split; intros Hobs.
  - apply leb_zero_sgn, nanmean_sgn; try assumption.
    eapply Forall_impl; [exact Hobs|]. intros v Hv. apply leb_zero_sgn, Hv.
  - apply leb_sgn_zero, nanmean_sgn; try assumption.
    eapply Forall_impl; [exact Hobs|]. intros v Hv. apply leb_sgn_zero, Hv.
Qed.

Lemma filled_value_keeps_sign_witness :
  0.10000000000000002%float = nanmean [0.1; 0.1; 0.1; nan]%float
  /\ isnan 0.10000000000000002%float = false
  /\ PrimFloat.leb 0 0.10000000000000002%float = true.
Proof.
  destruct (filled_value_keeps_sign example_constant 0
              (mkRow 1672531200000000000 1 [0.1; 0.1; 0.1; nan]%float)
              (mkRow 1672531200000000000 1 [0.1; 0.1; 0.1; 0.10000000000000002]%float)
              3 nan 0.10000000000000002%float 0.1%float
              eq_refl eq_refl eq_refl (list_elem_of_here _ _)
              eq_refl eq_refl eq_refl eq_refl) as (Hmean & Hnum & Hpos & _).
  split; [exact Hmean|]. split; [exact Hnum|].
  apply Hpos. repeat constructor.
Defined.

(** * Further properties of the routine *)

Lemma fully_missing_spec (r : Row) :
  fully_missing r = true <-> Forall (fun c => isnan c = true) (irradiance r).
Proof.
  unfold fully_missing. rewrite forallb_forall, Forall_forall.
  split; intros H x Hx; apply H; apply list_elem_of_In; exact Hx.
Qed.

Lemma not_fully_missing (r : Row) :
  fully_missing r = false -> exists x, x ∈ irradiance r /\ isnan x = false.
Proof.
  unfold fully_missing. induction (irradiance r) as [|c l IH]; simpl; [discriminate|].
  destruct (isnan c) eqn:E; simpl.
  - intros H. destruct (IH H) as (x & Hx & Hn). exists x. split; [right; exact Hx|exact Hn].
  - intros _. exists c. split; [left|exact E].
Qed.

Lemma row_nulls_fully_missing (r : Row) :
  fully_missing r = true -> row_nulls r = length (irradiance r).
Proof.
  intros H. apply fully_missing_spec in H. unfold row_nulls.
  induction H as [|c l Hc _ IH]; simpl; [reflexivity|].
  rewrite filter_cons_True by exact Hc. simpl. rewrite IH. reflexivity.
Qed.

Lemma row_nulls_zero (r : Row) :
  row_nulls r = 0 <-> Forall (fun c => isnan c = false) (irradiance r).
Proof.
  unfold row_nulls. induction (irradiance r) as [|c l IH]; simpl.
  - split; [constructor|reflexivity].
  - destruct (isnan c) eqn:E.
    + rewrite filter_cons_True by exact E. simpl. split; [discriminate|].
      intros H. inversion H; congruence.
    + rewrite filter_cons_False by congruence. rewrite IH. split.
      * intros H. constructor; assumption.
      * intros H. inversion H; assumption.
Qed.

Lemma imputed_row_complete (r : Row) :
  row_nulls r = 0 -> imputed_row r = r.
Proof.
  intros H. apply row_nulls_zero in H. unfold imputed_row.
  destruct (isnan (nanmean (irradiance r))); [reflexivity|].
  rewrite fillna_no_nan by exact H. destruct r; reflexivity.
Qed.

(** X1: in a table of the data model, the count the routine reports after
    imputation is the number of year cells in the fully missing rows; it is 0
    when every row has an observed value. *)
Theorem remaining_nulls_are_missing_rows (t : DataFrame) :
  IrradianceTable t ->
  isnull_sum (impute t)
  = sum_list_with (fun r => if fully_missing r then length (irradiance r) else 0)
                  (values t)
  /\ (Forall (fun r => fully_missing r = false) (values t) ->
      isnull_sum (impute t) = 0).
Proof.
  intros Ht. rewrite impute_imputed. unfold isnull_sum, imputed. simpl.
  assert (forall r, r ∈ values t ->
            row_nulls (imputed_row r)
            = if fully_missing r then length (irradiance r) else 0) as Hrow.
  { intros r Hr. destruct (fully_missing r) eqn:E.
    - rewrite imputed_row_skip
        by (apply nanmean_all_nan, fully_missing_spec, E).
      apply row_nulls_fully_missing, E.
    - destruct (not_fully_missing r E) as (x & Hx & Hn).
      apply row_nulls_filled. eapply IrradianceTable_mean; eassumption. }
  clear Ht. induction (values t) as [|r rows IH]; simpl.
  - split; [reflexivity|intros _; reflexivity].
  - destruct IH as [IH1 IH2]; [intros r' Hr'; apply Hrow; right; exact Hr'|].
    rewrite (Hrow r) by left. split; [rewrite IH1; reflexivity|].
    intros Hall. inversion Hall as [|? ? Hr Hrest]; subst.
    rewrite Hr, (IH2 Hrest). reflexivity.
Qed.

Lemma remaining_nulls_are_missing_rows_witness :
  isnull_sum (impute (mkDF (columns sample_df) (values sample_df ++ values example_missing)))
  = 4.
Proof.
  exact (proj1 (remaining_nulls_are_missing_rows
                  (mkDF (columns sample_df) (values sample_df ++ values example_missing))
                  eq_refl)).
Defined.

(** X2: a table whose rows are each fully missing or complete is returned
    unchanged; in the data model these are the only tables returned
    unchanged. *)
Theorem impute_fixed_points (t : DataFrame) :
  (Forall (fun r => fully_missing r = true \/ row_nulls r = 0) (values t) ->
   impute t = t)
  /\ (IrradianceTable t -> impute t = t ->
      Forall (fun r => fully_missing r = true \/ row_nulls r = 0) (values t)).
Proof.
  rewrite impute_imputed. unfold imputed. split.
  - intros H. destruct t as [cols rows]. simpl in *. f_equal.
    induction H as [|r rows [Hr|Hr] _ IH]; simpl; [reflexivity| |]; rewrite IH.
    + rewrite imputed_row_skip by (apply nanmean_all_nan, fully_missing_spec, Hr).
      reflexivity.
    + rewrite imputed_row_complete by exact Hr. reflexivity.
  - intros Ht Heq. apply Forall_forall. intros r Hr.
    destruct (fully_missing r) eqn:E; [left; reflexivity|right].
    destruct (not_fully_missing r E) as (x & Hx & Hn).
    pose proof (IrradianceTable_mean t r x Ht Hr Hx Hn) as Hm.
    assert (imputed_row r = r) as Hfix.
    { destruct t as [cols rows]. simpl in *. injection Heq as Heq.
      clear Ht Hm. induction rows as [|r0 rows IH]; [inversion Hr|].
      simpl in Heq. injection Heq as H0 Hrest.
      apply elem_of_cons in Hr as [->|Hr]; [exact H0|apply IH; assumption]. }
    rewrite <- Hfix. apply row_nulls_filled, Hm.
Qed.

Lemma impute_fixed_points_witness :
  impute example_missing = example_missing
  /\ Forall (fun r => fully_missing r = true \/ row_nulls r = 0)
            (values (impute sample_df)).
Proof.
  split.
  - apply (proj1 (impute_fixed_points example_missing)).
    repeat constructor.
  - apply (proj2 (impute_fixed_points (impute sample_df))); vm_compute; reflexivity.
Defined.

Lemma imputed_idem (t : DataFrame) : imputed (imputed t) = imputed t.
Proof.
  unfold imputed. simpl. f_equal. rewrite map_map.
  apply map_ext. intros r. apply imputed_row_idem.
Qed.

(** X3: calling the routine on the frame it has just returned gives an equal
    frame at a second fresh address; the second call reports the same count
    before and after, and the first input is still untouched. *)
Theorem fill_twice_run (w : World) (df : ref) (t : DataFrame) :
  heap w !! df = Some t ->
  fill_twice df w
  = Some (S (length (heap w)),
          mkWorld (heap w ++ [impute t; impute t])
                  (stdout w ++ [LineColumns (drop 2 (columns t));
                                LineInitialNaN (isnull_sum t);
                                LineFinalNaN (isnull_sum (impute t));
                                LineColumns (drop 2 (columns t));
                                LineInitialNaN (isnull_sum (impute t));
                                LineFinalNaN (isnull_sum (impute t))])).
Proof.
  intros Hdf. unfold fill_twice, IO.bind.
  rewrite (fill_run w df t Hdf).
  erewrite fill_run by (simpl; apply list_lookup_middle; reflexivity).
  cbn [heap stdout]. rewrite imputed_idem, !impute_imputed.
  rewrite length_app, <- !app_assoc. simpl.
  rewrite Nat.add_1_r. reflexivity.
Qed.

Lemma fill_twice_run_witness :
  fill_twice 0 (mkWorld [sample_df] [])
  = Some (2,
          mkWorld [sample_df; impute sample_df; impute sample_df]
                  [LineColumns [LInt 2013; LInt 2014; LInt 2015; LInt 2016];
                   LineInitialNaN 5; LineFinalNaN 0;
                   LineColumns [LInt 2013; LInt 2014; LInt 2015; LInt 2016];
                   LineInitialNaN 0; LineFinalNaN 0]).
Proof.
  exact (fill_twice_run (mkWorld [sample_df] []) 0 sample_df eq_refl).
Defined.

(** X4: imputation commutes with row selection and reordering: the output of
    a concatenation is the concatenation of the outputs, the output of the
    first [n] rows is the first [n] rows of the output, and reordering the
    input rows reorders the output rows the same way. *)
Theorem impute_commutes_with_rows (cols : list Label) (rows1 rows2 : list Row) (n : nat) :
  values (impute (mkDF cols (rows1 ++ rows2)))
  = values (impute (mkDF cols rows1)) ++ values (impute (mkDF cols rows2))
  /\ values (impute (mkDF cols (take n rows1))) = take n (values (impute (mkDF cols rows1)))
  /\ values (impute (mkDF cols (reverse rows1))) = reverse (values (impute (mkDF cols rows1)))
  /\ (rows1 ≡ₚ rows2 ->
      values (impute (mkDF cols rows1)) ≡ₚ values (impute (mkDF cols rows2))).
Proof.
  rewrite !impute_imputed. unfold imputed. simpl.
  split; [apply map_app|]. split; [apply (fmap_take imputed_row)|].
  split; [apply (fmap_reverse imputed_row)|].
  intros H. apply (fmap_Permutation imputed_row), H.
Qed.

Lemma impute_commutes_with_rows_witness :
  values (impute (mkDF (columns sample_df) (take 2 (values sample_df))))
  ≡ₚ values (impute (mkDF (columns sample_df) (reverse (take 2 (values sample_df))))).
Proof.
  apply (impute_commutes_with_rows (columns sample_df)
           (take 2 (values sample_df)) (reverse (take 2 (values sample_df))) 0).
  symmetry. apply reverse_Permutation.
Defined.

Lemma null_or_real_not_inf (m : float) :
  isnan m = false -> PrimFloat.is_infinity m = false -> null_or_real m = true.
Proof.
  intros Hn Hi. unfold null_or_real, is_finite. fold (isnan m).
  rewrite Hn, Hi. reflexivity.
Qed.

(** X5: the output of a table of the data model is again in the data model
    provided no row mean is infinite; the proviso is needed, since real
    readings whose sum overflows are filled with infinity. *)
Theorem impute_stays_in_model :
  (forall t : DataFrame,
      IrradianceTable t ->
      Forall (fun r => PrimFloat.is_infinity (nanmean (irradiance r)) = false) (values t) ->
      IrradianceTable (impute t))
  /\ (IrradianceTable example_overflow
      /\ ~ IrradianceTable (impute example_overflow)).
Proof.
  split; [|split; [reflexivity | vm_compute; discriminate]].
  intros t Ht Hinf. rewrite impute_imputed.
  pose proof Ht as Ht'. unfold IrradianceTable, is_irradiance_table in Ht' |- *.
  apply andb_true_iff in Ht' as [Hcols _]. unfold imputed. cbn [columns values].
  apply andb_true_iff. split; [exact Hcols|].
  apply forallb_forall. intros r' Hr'.
  apply in_map_iff in Hr' as (r & <- & Hr). apply list_elem_of_In in Hr.
  destruct (IrradianceTable_row t r Ht Hr) as (Hlen & Hreal & _).
  rewrite imputed_row_length, Hlen, Nat.eqb_refl. simpl.
  apply forallb_forall. intros c Hc.
  destruct (isnan (nanmean (irradiance r))) eqn:E.
  - rewrite (imputed_row_skip r E) in Hc. rewrite Forall_forall in Hreal.
    apply Hreal, list_elem_of_In, Hc.
  - rewrite (imputed_row_fill r E) in Hc. simpl in Hc. unfold fillna in Hc.
    apply in_map_iff in Hc as (c0 & <- & Hc0).
    destruct (isnan c0) eqn:Ec0.
    + apply null_or_real_not_inf; [exact E|].
      rewrite Forall_forall in Hinf. apply Hinf, Hr.
    + rewrite Forall_forall in Hreal. apply Hreal, list_elem_of_In, Hc0.
Qed.

Lemma impute_stays_in_model_witness : IrradianceTable (impute sample_df).
Proof.
  apply (proj1 impute_stays_in_model sample_df); [reflexivity|].
  repeat constructor.
Defined.

(** * Column-wise counts *)

Lemma sum_list_map_add {A} (f g : A -> nat) (l : list A) :
  sum_list (map (fun j => f j + g j) l) = sum_list (map f l) + sum_list (map g l).
Proof. induction l as [|x l IH]; simpl; [reflexivity|]. rewrite IH. lia. Qed.

Lemma sum_list_map_zero {A} (l : list A) : sum_list (map (fun _ => 0) l) = 0.
Proof. induction l as [|x l IH]; simpl; [reflexivity|exact IH]. Qed.

Lemma sum_list_cons (x : nat) (l : list nat) : sum_list (x :: l) = x + sum_list l.
Proof. reflexivity. Qed.

(** The NaN cells of a row, counted position by position. *)
Lemma row_nulls_by_position (l : list float) :
  sum_list (map (fun j => match l !! j with
                          | Some c => if isnan c then 1 else 0
                          | None => 0
                          end)
                (seq 0 (length l)))
  = length (filter (fun x => isnan x = true) l).
Proof.
  induction l as [|c l IH]; [reflexivity|].
  change (seq 0 (length (c :: l))) with (0 :: seq 1 (length l)).
  rewrite <- seq_shift, map_cons, map_map, sum_list_cons.
  rewrite (map_ext _ (fun j => match l !! j with
                               | Some c0 => if isnan c0 then 1 else 0
                               | None => 0
                               end)) by reflexivity.
  change ((c :: l) !! 0) with (Some c).
  rewrite IH. destruct (isnan c) eqn:E.
  - rewrite filter_cons_True by exact E. reflexivity.
  - rewrite filter_cons_False by congruence. reflexivity.
Qed.

Lemma year_column_cons (j : nat) (cols : list Label) (r : Row) (rows : list Row) :
  length (filter (fun x => isnan x = true) (year_column j (mkDF cols (r :: rows))))
  = match irradiance r !! j with
    | Some c => if isnan c then 1 else 0
    | None => 0
    end
    + length (filter (fun x => isnan x = true) (year_column j (mkDF cols rows))).
Proof.
  unfold year_column. simpl. destruct (irradiance r !! j) as [c|]; [|reflexivity].
  destruct (isnan c) eqn:E.
  - rewrite filter_cons_True by exact E. reflexivity.
  - rewrite filter_cons_False by congruence. reflexivity.
Qed.

Lemma year_counts_sum (cols : list Label) (rows : list Row) (n : nat) :
  Forall (fun r => length (irradiance r) = n) rows ->
  sum_list (map (fun j => length (filter (fun x => isnan x = true)
                                         (year_column j (mkDF cols rows))))
                (seq 0 n))
  = sum_list_with row_nulls rows.
Proof.
  induction 1 as [|r rows Hr _ IH].
  - unfold year_column. simpl. apply sum_list_map_zero.
  - rewrite (map_ext _ _ (fun j => year_column_cons j cols r rows)).
    rewrite sum_list_map_add, IH. simpl. f_equal.
    rewrite <- Hr. apply row_nulls_by_position.
Qed.

(** X6: on a rectangular frame the per-column NaN counts of the year columns
    add up to the number of NaN year cells counted row by row: the double sum
    [.isnull().sum().sum()] the routine prints counts every missing cell
    once. *)
Theorem column_counts_sum (t : DataFrame) :
  rectangular t -> sum_list (isnull_by_column t) = isnull_sum t.
Proof.
  unfold rectangular, isnull_by_column, isnull_sum. destruct t as [cols rows].
  cbn [columns values]. intros H. apply year_counts_sum, H.
Qed.

Lemma column_counts_sum_witness : sum_list [1; 1; 2; 1] = 5.
Proof.
  apply (column_counts_sum sample_df). repeat constructor.
Defined.

Lemma imputed_cell (r : Row) (j : nat) :
  match irradiance r !! j with
  | Some c => exists c', irradiance (imputed_row r) !! j = Some c'
                         /\ (isnan c' = true -> isnan c = true)
  | None => irradiance (imputed_row r) !! j = None
  end.
Proof.
  destruct (irradiance r !! j) as [c|] eqn:Hj.
  - destruct (isnan c) eqn:Ec.
    + assert (is_Some (irradiance (imputed_row r) !! j)) as [c' Hc'].
      { apply lookup_lt_is_Some. rewrite imputed_row_length.
        eapply lookup_lt_Some, Hj. }
      exists c'. split; [exact Hc'|reflexivity].
    + exists c. split; [apply imputed_row_keeps; assumption|congruence].
  - apply lookup_ge_None. rewrite imputed_row_length. apply lookup_ge_None, Hj.
Qed.

Lemma year_column_imputed_le (j : nat) (t : DataFrame) :
  length (filter (fun x => isnan x = true) (year_column j (imputed t)))
  <= length (filter (fun x => isnan x = true) (year_column j t)).
Proof.
  unfold year_column, imputed. simpl.
  induction (values t) as [|r rows IH]; simpl; [lia|].
  pose proof (imputed_cell r j) as Hcell.
  destruct (irradiance r !! j) as [c|].
  - destruct Hcell as (c' & -> & Himp).
    destruct (isnan c') eqn:Ec'.
    + rewrite (filter_cons_True _ c') by exact Ec'.
      rewrite (filter_cons_True _ c) by (apply Himp; reflexivity).
      simpl. apply le_n_S, IH.
    + rewrite (filter_cons_False _ c') by congruence.
      destruct (isnan c) eqn:Ec.
      * rewrite filter_cons_True by exact Ec. simpl. apply Nat.le_le_succ_r, IH.
      * rewrite filter_cons_False by congruence. exact IH.
  - rewrite Hcell. exact IH.
Qed.

(** X7: imputation never raises the NaN count of a year column: column by
    column, the counts after the call are at most the counts before. *)
Theorem column_counts_decrease (t : DataFrame) :
  Forall2 le (isnull_by_column (impute t)) (isnull_by_column t).
Proof.
  rewrite impute_imputed. unfold isnull_by_column. simpl.
  apply Forall2_fmap, Forall_Forall2_diag, Forall_forall.
  intros j _. apply year_column_imputed_le.
Qed.

(** * The demonstration block *)

Lemma rectangular_imputed (t : DataFrame) : rectangular t -> rectangular (imputed t).
Proof.
  unfold rectangular, imputed. cbn [columns values]. intros H.
  apply Forall_forall. intros r' Hr'.
  apply list_elem_of_fmap in Hr' as (r & -> & Hr).
  rewrite imputed_row_length. rewrite Forall_forall in H. apply H, Hr.
Qed.

Lemma length_isnull_by_column (t : DataFrame) :
  length (isnull_by_column t) = length (drop 2 (columns t)).
Proof. unfold isnull_by_column. rewrite length_map. apply length_seq. Qed.

(** X8: for a rectangular frame with its two identifier columns, the
    demonstration block prints, in this order: the original frame, its NaN
    count per column, the three lines of the routine, the imputed frame and
    its NaN count per column. The counts are listed under the frame's column
    labels, those printed before the call add up to the count the routine
    reports as initial, those printed after to the count it reports as final,
    and no column's count goes up. *)
Theorem demo_transcript (data : DataFrame) :
  rectangular data -> 2 <= length (columns data) ->
  exists before after : list (Label * nat),
    Demo.demo data
    = Some [Demo.OutHeading Demo.HeadingOriginal; Demo.OutFrame data;
            Demo.OutHeading Demo.HeadingNaNBefore; Demo.OutNullCounts before;
            Demo.OutRoutine (LineColumns (drop 2 (columns data)));
            Demo.OutRoutine (LineInitialNaN (sum_list before.*2));
            Demo.OutRoutine (LineFinalNaN (sum_list after.*2));
            Demo.OutHeading Demo.HeadingFilled; Demo.OutFrame (impute data);
            Demo.OutHeading Demo.HeadingNaNAfter; Demo.OutNullCounts after]
    /\ before.*1 = columns data
    /\ after.*1 = columns data
    /\ Forall2 le after.*2 before.*2.
Proof.
  intros Hrect Hcols.
  exists (Demo.null_counts data), (Demo.null_counts (imputed data)).
  assert (forall t, 2 <= length (columns t) ->
            (Demo.null_counts t).*2 = 0 :: 0 :: isnull_by_column t) as Hsnd.
  { intros t Ht. unfold Demo.null_counts. apply snd_zip. simpl.
    rewrite length_isnull_by_column, length_drop. lia. }
  assert (forall t, (Demo.null_counts t).*1 = columns t) as Hfst.
  { intros t. unfold Demo.null_counts. apply fst_zip. simpl.
    rewrite length_isnull_by_column, length_drop. lia. }
  assert (forall t, rectangular t -> sum_list (isnull_by_column t) = isnull_sum t) as Hsum.
  { intros [cols rows] H. unfold isnull_by_column, isnull_sum. cbn [columns values].
    apply year_counts_sum, H. }
  rewrite !Hsnd, !Hfst by assumption. simpl sum_list_with.
  rewrite !Hsum by auto using rectangular_imputed.
  split; [|split; [reflexivity|split; [reflexivity|]]].
  - unfold Demo.demo. rewrite (fill_run (mkWorld [data] []) 0 data) by reflexivity.
    rewrite impute_imputed. reflexivity.
  - repeat (constructor; [lia|]). unfold isnull_by_column. cbn [imputed columns].
    apply Forall2_fmap, Forall_Forall2_diag, Forall_forall.
    intros j _. apply year_column_imputed_le.
Qed.

Lemma demo_transcript_witness :
  exists before after : list (Label * nat),
    Demo.main
    = Some [Demo.OutHeading Demo.HeadingOriginal; Demo.OutFrame sample_df;
            Demo.OutHeading Demo.HeadingNaNBefore; Demo.OutNullCounts before;
            Demo.OutRoutine (LineColumns [LInt 2013; LInt 2014; LInt 2015; LInt 2016]);
            Demo.OutRoutine (LineInitialNaN (sum_list before.*2));
            Demo.OutRoutine (LineFinalNaN (sum_list after.*2));
            Demo.OutHeading Demo.HeadingFilled; Demo.OutFrame (impute sample_df);
            Demo.OutHeading Demo.HeadingNaNAfter; Demo.OutNullCounts after]
    /\ before.*1 = columns sample_df
    /\ after.*1 = columns sample_df
    /\ Forall2 le after.*2 before.*2.
Proof.
  apply (demo_transcript sample_df); [repeat constructor | simpl; lia].
Defined.

(** * The plotting script on a workbook *)



(** X10: on a rectangular sheet of [n] rows with at least one year column the
    figure has one line per year column, in column order: line [k] carries the
    label of year column [k], the colour index [k] (inside the palette of
    [num_years] colours), the constant x coordinate [k], the y coordinates
    0 .. n/4 - 1 and, as z coordinates, the cells of year column [k] in the
    first n/4 rows; the three coordinate lists have the same length, and there
    is one x tick per tick label. *)
Theorem plot_lines_of_sheet (fs : Plot.FileSystem) (df : DataFrame) :
  fs Plot.EXCEL_FILE_PATH Plot.SHEET_NAME = Some df ->
  rectangular df ->
  drop 2 (columns df) <> [] ->
  exists img,
    Plot.main fs = Plot.Returned img
    /\ length (Plot.lines (Plot.figure img)) = length (drop 2 (columns df))
    /\ length (Plot.xticks (Plot.figure img))
       = length (Plot.xticklabels (Plot.figure img))
    /\ forall k year,
         drop 2 (columns df) !! k = Some year ->
         exists ln,
           Plot.lines (Plot.figure img) !! k = Some ln
           /\ Plot.line_label ln = year
           /\ Plot.line_color ln = k
           /\ Plot.line_color ln < Plot.legend_ncol (Plot.figure img)
           /\ Plot.line_x ln = replicate (length (values df) / 4) k
           /\ Plot.line_y ln = seq 0 (length (values df) / 4)
           /\ length (Plot.line_z ln) = length (values df) / 4
           /\ forall i r, i < length (values df) / 4 -> values df !! i = Some r ->
                exists z, Plot.line_z ln !! i = Some z /\ irradiance r !! k = Some z.
Proof.
  intros Hfs Hrect Hyears. eexists.
  split; [apply (main_on_sheet fs df Hfs Hrect Hyears)|].
  unfold sheet_figure, sheet_lines. cbn -[Nat.div].
  pose proof (quarter_le (length (values df))) as Hq.
  set (n := length (values df) / 4) in *.
  split; [apply length_imap|]. split; [apply length_seq|].
  intros k year Hk. rewrite list_lookup_imap, Hk. simpl.
  eexists. split; [reflexivity|]. cbn -[Nat.div].
  assert (k < length (drop 2 (columns df))) as Hklt by (eapply lookup_lt_Some, Hk).
  split; [reflexivity|]. split; [reflexivity|]. split; [exact Hklt|].
  split; [reflexivity|]. split; [reflexivity|].
  assert (Forall (fun row => k < length row) (take n (map irradiance (values df))))
    as Hwide.
  { apply Forall_forall. intros row Hrow.
    apply subseteq_take in Hrow. apply list_elem_of_fmap in Hrow as (r & -> & Hr).
    unfold rectangular in Hrect. rewrite Forall_forall in Hrect.
    rewrite (Hrect r Hr). exact Hklt. }
  destruct (omap_column k _ Hwide) as [Hlen Hget].
  split; [rewrite Hlen, length_take, length_map; lia|].
  intros i r Hi Hr.
  assert (take n (map irradiance (values df)) !! i = Some (irradiance r)) as Hrow.
  { rewrite lookup_take_lt by exact Hi.
    change (map irradiance (values df)) with (irradiance <$> values df).
    rewrite list_lookup_fmap, Hr. reflexivity. }
  rewrite (Hget i _ Hrow).
  assert (is_Some (irradiance r !! k)) as [z Hz].
  { apply lookup_lt_is_Some. rewrite Forall_forall in Hwide.
    apply Hwide. eapply list_elem_of_lookup_2, Hrow. }
  exists z. split; exact Hz.
Qed.

Lemma plot_lines_of_sheet_witness :
  exists img,
    Plot.main (fun _ _ => Some sample_df) = Plot.Returned img
    /\ length (Plot.lines (Plot.figure img)) = 4
    /\ length (Plot.xticks (Plot.figure img))
       = length (Plot.xticklabels (Plot.figure img))
    /\ forall k year,
         [LInt 2013; LInt 2014; LInt 2015; LInt 2016] !! k = Some year ->
         exists ln,
           Plot.lines (Plot.figure img) !! k = Some ln
           /\ Plot.line_label ln = year
           /\ Plot.line_color ln = k
           /\ Plot.line_color ln < Plot.legend_ncol (Plot.figure img)
           /\ Plot.line_x ln = replicate 1 k
           /\ Plot.line_y ln = [0]
           /\ length (Plot.line_z ln) = 1
           /\ forall i r, i < 1 -> values sample_df !! i = Some r ->
                exists z, Plot.line_z ln !! i = Some z /\ irradiance r !! k = Some z.
Proof.
  apply (plot_lines_of_sheet (fun _ _ => Some sample_df) sample_df).
  - reflexivity.
  - repeat constructor.
  - discriminate.
Defined.

Lemma rectangular_of_model (t : DataFrame) : IrradianceTable t -> rectangular t.
Proof.
  intros Ht. apply Forall_forall. intros r Hr.
  apply (IrradianceTable_row t r Ht Hr).
Qed.

(** X11: plotting the output of the routine: when the sheet holds the
    imputation of a table of the data model that has at least one year column
    and whose first quarter of rows all have an observed value, the script
    saves a figure and no plotted line has a NaN among its z coordinates. *)
Theorem plot_of_imputed_has_no_gap (fs : Plot.FileSystem) (t : DataFrame) :
  fs Plot.EXCEL_FILE_PATH Plot.SHEET_NAME = Some (impute t) ->
  IrradianceTable t ->
  drop 2 (columns t) <> [] ->
  Forall (fun r => fully_missing r = false)
         (take (length (values t) / 4) (values t)) ->
  exists img,
    Plot.main fs = Plot.Returned img
    /\ Forall (fun ln => Forall (fun z => isnan z = false) (Plot.line_z ln))
              (Plot.lines (Plot.figure img)).
Proof.
  intros Hfs Ht Hyears Hobs. rewrite impute_imputed in Hfs. eexists. split.
  { apply (main_on_sheet fs (imputed t) Hfs).
    - apply rectangular_imputed, rectangular_of_model, Ht.
    - exact Hyears. }
  unfold sheet_figure, sheet_lines. cbn -[Nat.div].
  apply Forall_forall. intros ln Hln.
  apply elem_of_lookup_imap_1 in Hln as (k & year & -> & _). cbn -[Nat.div].
  apply Forall_forall. intros z Hz.
  apply list_elem_of_omap in Hz as (row & Hrow & Hz).
  rewrite length_map in Hrow.
  change (map irradiance (map imputed_row (values t)))
    with (irradiance <$> (imputed_row <$> values t)) in Hrow.
  rewrite <- !fmap_take in Hrow.
  apply list_elem_of_fmap in Hrow as (r' & -> & Hr').
  apply list_elem_of_fmap in Hr' as (r & -> & Hr).
  rewrite Forall_forall in Hobs.
  destruct (not_fully_missing r (Hobs r Hr)) as (x & Hx & Hn).
  assert (r ∈ values t) as Hin by (eapply subseteq_take, Hr).
  pose proof (IrradianceTable_mean t r x Ht Hin Hx Hn) as Hm.
  rewrite (imputed_row_fill r Hm) in Hz. simpl in Hz.
  pose proof (fillna_valid _ (irradiance r) Hm) as Hv.
  rewrite Forall_forall in Hv. apply Hv. eapply list_elem_of_lookup_2, Hz.
Qed.

Lemma plot_of_imputed_has_no_gap_witness :
  exists img,
    Plot.main (fun _ _ => Some (impute sample_df)) = Plot.Returned img
    /\ Forall (fun ln => Forall (fun z => isnan z = false) (Plot.line_z ln))
              (Plot.lines (Plot.figure img)).
Proof.
  apply (plot_of_imputed_has_no_gap (fun _ _ => Some (impute sample_df)) sample_df).
  - reflexivity.
  - reflexivity.
  - discriminate.
  - repeat constructor.
Defined.

(** * Where the gaps are does not matter *)

Lemma SFsim_join (a b c : spec_float) : SFsim a c -> SFsim b c -> SFsim a b.
Proof.
  intros [->|[Ha Hc]] [->|[Hb Hc']].
  - apply SFsim_refl.
  - right. split; assumption.
  - right. split; assumption.
  - right. split; assumption.
Qed.

(** X12: the value a row is filled with depends on its observed values in
    year order, not on where its missing cells lie: two rows of null or real
    cells with the same non-empty sequence of observed values have equal
    means. *)
Theorem mean_ignores_gap_positions (a b : list float) :
  Forall (fun x => null_or_real x = true) a ->
  Forall (fun x => null_or_real x = true) b ->
  (Z.of_nat (length a) < 2 ^ 53)%Z ->
  (Z.of_nat (length b) < 2 ^ 53)%Z ->
  observed a = observed b ->
  observed a <> [] ->
  isnan (nanmean a) = false
  /\ PrimFloat.eqb (nanmean a) (nanmean b) = true.
Proof.
  intros Ha Hb Hla Hlb Hobs Hne.
  assert (exists x, x ∈ observed a) as [x Hx].
  { destruct (observed a) as [|x l]; [contradiction|]. exists x. left. }
  assert (0 < count_valid a) as Hpa.
  { unfold count_valid. fold (observed a). destruct (observed a); [inversion Hx|simpl; lia]. }
  assert (0 < count_valid b) as Hpb.
  { unfold count_valid. fold (observed b). rewrite <- Hobs.
    destruct (observed a); [inversion Hx|simpl; lia]. }
  apply list_elem_of_filter in Hx as [Hxn Hxa].
  pose proof (nanmean_not_nan a x Ha Hla Hxa Hxn) as Hm.
  split; [exact Hm|].
  apply SFsim_eqb; [|apply isnan_false, Hm].
  apply (SFsim_join _ _ (Prim2SF (arithmetic_mean (observed a)))).
  - apply nanmean_arithmetic_mean; assumption.
  - rewrite Hobs. apply nanmean_arithmetic_mean; assumption.
Qed.

Lemma mean_ignores_gap_positions_witness :
  isnan (nanmean [0.1; nan; nan; 0.12]%float) = false
  /\ PrimFloat.eqb (nanmean [0.1; nan; nan; 0.12]%float)
                   (nanmean [nan; 0.1; 0.12; nan]%float) = true.
Proof.
  apply mean_ignores_gap_positions.
  - repeat constructor.
  - repeat constructor.
  - reflexivity.
  - reflexivity.
  - reflexivity.
  - vm_compute. discriminate.
Defined.
